(** * selenium_webscrap.py: the link harvest, the per-vehicle extraction loop
      and the tabular view, as a shallow embedding.

    The script drives a browser through Selenium.  The browser is the only
    input of the program, so it is modelled by what it answers: a
    [WebElement] is the record of the answers one element gives to
    [get_attribute], [size] and [find_elements], and [driver.get] is a
    function from URLs to loaded documents.  Everything the script computes
    from those answers (string surgery, dictionaries, the loops and the
    exceptions they let escape) is translated literally. *)

From Stdlib Require Import String Ascii List ZArith Lia Bool Arith DecimalString.
Import ListNotations.
Open Scope string_scope.
Open Scope list_scope.

(* ================================================================== *)
(** * Exceptions and results *)

(** The Python and Selenium exceptions the script can let escape.
    [UnboundLocalError] is the subclass of [NameError] that Python reserves
    for unbound locals of a function body; the script's loops are
    module-level code (under [if __name__ == "__main__":]), where an unbound
    name raises plain [NameError]. *)
Inductive exn : Type :=
| NameError
| UnboundLocalError
| AttributeError
| TypeError
| ValueError
| IndexError
| NoSuchElementException
| TimeoutException
| InvalidArgumentException.

Inductive Result (A : Type) : Type :=
| Ok (a : A)
| Raise (e : exn).
Arguments Ok {A} a.
Arguments Raise {A} e.

Definition bind {A B : Type} (m : Result A) (k : A -> Result B) : Result B :=
  match m with
  | Ok a => k a
  | Raise e => Raise e
  end.

Notation "x <- m ;; k" := (bind m (fun x => k))
  (at level 61, m at next level, right associativity).
Notation "' pat <- m ;; k" := (bind m (fun x => match x with pat => k end))
  (at level 61, pat pattern, m at next level, right associativity).

(** A [for] loop whose body may raise: the first exception ends the loop. *)
Fixpoint for_each {A S : Type} (body : S -> A -> Result S) (xs : list A) (s : S)
  : Result S :=
  match xs with
  | [] => Ok s
  | x :: xs' => s' <- body s x ;; for_each body xs' s'
  end.

(* ================================================================== *)
(** * Python strings

    A text is a sequence of code points below 256 (Latin-1).  That covers
    every literal of the script and the URLs a browser serialises, which are
    ASCII; on these texts [str.lower] maps code point to code point and the
    digits [int] reads are 0-9.  Texts with other code points are outside
    this module; [Uni] below has the image cut for them. *)
Module Py.

Definition newline : string := String (ascii_of_nat 10) EmptyString.

Definition between (lo hi n : nat) : bool := Nat.leb lo n && Nat.leb n hi.

(** [str.lower] on one code point: A-Z and the Latin-1 capitals
    (U+00C0..U+00DE without the multiplication sign U+00D7). *)
Definition lower_char (c : ascii) : ascii :=
  let n := nat_of_ascii c in
  if between 65 90 n || (between 192 222 n && negb (Nat.eqb n 215))
  then ascii_of_nat (n + 32)
  else c.

Fixpoint lower (s : string) : string :=
  match s with
  | EmptyString => EmptyString
  | String c s' => String (lower_char c) (lower s')
  end.

(** [str.find]: lowest position at which [sub] occurs. *)
Fixpoint find (sub s : string) : option nat :=
  if prefix sub s then Some 0
  else match s with
       | EmptyString => None
       | String _ s' => option_map S (find sub s')
       end.

(** [s.index(sub)]: as [find], but absence raises [ValueError]. *)
Definition index (sub s : string) : Result nat :=
  match find sub s with
  | Some i => Ok i
  | None => Raise ValueError
  end.

(** [sub in s]. *)
Definition contains (sub s : string) : bool :=
  match find sub s with
  | Some _ => true
  | None => false
  end.

(** [s[:k]] and [s[k:]]; Python clamps a bound beyond the end. *)
Definition slice_to (k : nat) (s : string) : string := substring 0 k s.
Definition slice_from (k : nat) (s : string) : string :=
  substring k (String.length s - k) s.

(** [s.replace(old, new)] for a non-empty [old] (every call of the script
    passes a non-empty literal).  [skip] counts the characters of a matched
    occurrence that are still to be dropped. *)
Fixpoint replace_aux (old new : string) (skip : nat) (s : string) : string :=
  match s with
  | EmptyString => EmptyString
  | String c s' =>
      match skip with
      | S k => replace_aux old new k s'
      | O =>
          if prefix old s
          then (new ++ replace_aux old new (String.length old - 1) s')%string
          else String c (replace_aux old new 0 s')
      end
  end.

Definition replace (old new s : string) : string := replace_aux old new 0 s.

(** [s.split(sep)] for a non-empty [sep]; the head of the result is the
    piece being read. *)
Fixpoint split_aux (sep : string) (skip : nat) (s : string) : list string :=
  match s with
  | EmptyString => [EmptyString]
  | String c s' =>
      match skip with
      | S k => split_aux sep k s'
      | O =>
          if prefix sep s
          then EmptyString :: split_aux sep (String.length sep - 1) s'
          else match split_aux sep 0 s' with
               | w :: ws => String c w :: ws
               | [] => [String c EmptyString]
               end
      end
  end.

Definition split (sep s : string) : list string := split_aux sep 0 s.

(** [xs[i]] on a list. *)
Definition item {A : Type} (xs : list A) (i : nat) : Result A :=
  match nth_error xs i with
  | Some x => Ok x
  | None => Raise IndexError
  end.

Fixpoint all_chars (p : ascii -> bool) (s : string) : bool :=
  match s with
  | EmptyString => true
  | String c s' => p c && all_chars p s'
  end.

Definition is_decimal_char (c : ascii) : bool := between 48 57 (nat_of_ascii c).

(** Code points below 256 with a Unicode numeric value: the digits, the
    superscripts U+00B2, U+00B3, U+00B9 and the fractions U+00BC..U+00BE. *)
Definition is_numeric_char (c : ascii) : bool :=
  let n := nat_of_ascii c in
  between 48 57 n || (Nat.eqb n 178) || (Nat.eqb n 179) || (Nat.eqb n 185) || between 188 190 n.

(** [str.isnumeric]: false on the empty string. *)
Definition isnumeric (s : string) : bool :=
  match s with
  | EmptyString => false
  | _ => all_chars is_numeric_char s
  end.

(** White space that [int] strips on both sides: the ASCII blanks and,
    above them, the code points [str.isspace] accepts (U+0085, U+00A0). *)
Definition is_space (c : ascii) : bool :=
  let n := nat_of_ascii c in
  between 9 13 n || (Nat.eqb n 32) || (Nat.eqb n 133) || (Nat.eqb n 160).

Fixpoint lstrip (s : string) : string :=
  match s with
  | EmptyString => EmptyString
  | String c s' => if is_space c then lstrip s' else s
  end.

Fixpoint rstrip (s : string) : string :=
  match s with
  | EmptyString => EmptyString
  | String c s' =>
      match rstrip s' with
      | EmptyString => if is_space c then EmptyString else String c EmptyString
      | r => String c r
      end
  end.

Definition digit_of (c : ascii) : option Z :=
  if is_decimal_char c then Some (Z.of_nat (nat_of_ascii c - 48)) else None.

(** The digit part of an integer literal: decimal digits, single
    underscores allowed between two digits.  Returns the value and the
    number of digits read. *)
Fixpoint digits (s : string) (acc : Z) (cnt : nat) (after_digit : bool)
  : option (Z * nat) :=
  match s with
  | EmptyString => if after_digit then Some (acc, cnt) else None
  | String c s' =>
      if Ascii.eqb c "_"%char
      then (if after_digit then digits s' acc cnt false else None)
      else match digit_of c with
           | Some d => digits s' (acc * 10 + d)%Z (S cnt) true
           | None => None
           end
  end.

(** CPython refuses to convert more than this many digits (the default of
    [sys.int_max_str_digits]). *)
Definition int_max_str_digits : nat := 4300.

(** [int(s)] in base 10: surrounding white space, an optional sign, then
    the digits; anything else is a [ValueError]. *)
Definition int (s : string) : Result Z :=
  let t := rstrip (lstrip s) in
  let '(neg, body) :=
    match t with
    | String c r =>
        if Ascii.eqb c "-"%char then (true, r)
        else if Ascii.eqb c "+"%char then (false, r)
        else (false, t)
    | EmptyString => (false, t)
    end in
  match digits body 0%Z 0 false with
  | Some (n, k) =>
      if Nat.ltb int_max_str_digits k then Raise ValueError
      else Ok (if neg then (- n)%Z else n)
  | None => Raise ValueError
  end.

(** [str(n)] / [f"{n}"] of a non-negative integer. *)
Definition str (n : nat) : string := NilEmpty.string_of_uint (Nat.to_uint n).

End Py.

(* ================================================================== *)
(** * Python dictionaries

    A [dict] keeps its keys in insertion order; assigning to a key that is
    already there replaces the value and leaves the key where it is. *)

Definition dict (V : Type) : Type := list (string * V).

Fixpoint dict_set {V : Type} (k : string) (v : V) (d : dict V) : dict V :=
  match d with
  | [] => [(k, v)]
  | (k', v') :: d' =>
      if String.eqb k' k then (k', v) :: d' else (k', v') :: dict_set k v d'
  end.

Fixpoint dict_get {V : Type} (k : string) (d : dict V) : option V :=
  match d with
  | [] => None
  | (k', v') :: d' => if String.eqb k' k then Some v' else dict_get k d'
  end.

Definition keys {V : Type} (d : dict V) : list string := map fst d.

(** What [dict] guarantees of its [items()]: no key twice. *)
Definition dict_wf {V : Type} (d : dict V) : Prop := NoDup (keys d).

(** The values the script stores in a record. *)
Inductive pyval : Type :=
| VStr (s : string)
| VInt (n : Z)
| VBool (b : bool).

Definition PyRecord : Type := dict pyval.

(* ================================================================== *)
(** * The Selenium interface *)

Inductive By : Type := ID | XPATH | CSS_SELECTOR | CLASS_NAME | TAG_NAME.

(** One element of a loaded document, as the script can observe it:
    [innerText e] is [e.get_attribute("innerText")] (a property every HTML
    element has), [get_attribute e a] any other attribute ([None] when the
    element has none), [size_width e] is [e.size["width"]], and
    [find_elements e by loc] the matches below [e] in document order. *)
#[warnings="-register-all"]
Inductive WebElement : Type := mkElement {
  innerText : string;
  get_attribute : string -> option string;
  size_width : Z;
  find_elements : By -> string -> list WebElement
}.

(** [e.find_element(by, loc)]: the first match, or [NoSuchElementException]. *)
Definition find_element (e : WebElement) (by_method : By) (name : string)
  : Result WebElement :=
  match find_elements e by_method name with
  | x :: _ => Ok x
  | [] => Raise NoSuchElementException
  end.

(** [get_element(driver, by_method, name)]: waits for the element to be
    present, then returns the first match.  On a loaded document the wait
    succeeds at once or times out. *)
Definition get_element (driver : WebElement) (by_method : By) (name : string)
  : Result WebElement :=
  match find_elements driver by_method name with
  | [] => Raise TimeoutException
  | _ :: _ => find_element driver by_method name
  end.

(** [get_elements(driver, by_method, name)]. *)
Definition get_elements (driver : WebElement) (by_method : By) (name : string)
  : Result (list WebElement) :=
  match find_elements driver by_method name with
  | [] => Raise TimeoutException
  | _ :: _ => Ok (find_elements driver by_method name)
  end.

(** The browser: what [driver.get(url)] loads, or the exception it raises.
    The script can also hand it [None] (an anchor without [href]), which the
    driver refuses; see [scrape]. *)
Definition Browser : Type := string -> Result WebElement.

(* ================================================================== *)
(** * Constants of the script *)

Definition URL_VEHICLE : string := "https://gta.fandom.com/wiki/Vehicles_in_GTA_Online".
Definition CLASS_TABLE : string := "wikitable".
Definition XPATH_TABLE : string := "//*[@id=" ++ String (ascii_of_nat 34) "mw-content-text"
  ++ String (ascii_of_nat 34) "]/div[1]/table[2]".
Definition XPATH_IMAGE : string := "aside/section[1]/figure[2]/a".
Definition XPATH_PRICE : string := "aside/section[2]/div/div".
Definition CLASS_STATS : string := "rssc-stats-container".
Definition CLASS_INFOS : string := "rssc-info-container".
Definition LIMIT : nat := 150.

(* ================================================================== *)
(** * Get vehicle links *)

Definition LINK_NOT_FOUND : string := "ERROR: Link element within list-item not found!".

(** The state of the harvest: the [links] dictionary and what was printed. *)
Record Harvest : Type := mkHarvest {
  links : dict (option string);
  printed : list string
}.

(** The [try] / [except] / [else] around one list item. *)
Definition harvest_item (st : Harvest) (item : WebElement) : Harvest :=
  match find_element item CSS_SELECTOR "a" with
  | Raise _ => mkHarvest (links st) (printed st ++ [LINK_NOT_FOUND])
  | Ok link =>
      mkHarvest (dict_set (innerText link) (get_attribute link "href") (links st))
                (printed st)
  end.

Definition harvest_from (vehicle_table : WebElement) (st : Harvest) : Harvest :=
  fold_left (fun st row =>
    fold_left (fun st cell =>
      fold_left (fun st list =>
        fold_left harvest_item (find_elements list CSS_SELECTOR "li") st)
        (find_elements cell CSS_SELECTOR "ul") st)
      (find_elements row CSS_SELECTOR "td") st)
    (find_elements vehicle_table CSS_SELECTOR "tr") st.

Definition harvest_links (vehicle_table : WebElement) : Harvest :=
  harvest_from vehicle_table (mkHarvest [] []).

(* ================================================================== *)
(** * Get data from vehicle links: one vehicle page *)

(** [url[: url.lower().index(".png") + 4]]; [url] is [None] when the anchor
    has no [href]. *)
Definition image_of (url : option string) : Result string :=
  match url with
  | None => Raise AttributeError
  | Some url =>
      i <- Py.index ".png" (Py.lower url) ;;
      Ok (Py.slice_to (i + 4) url)
  end.

Definition has_attribute (el : WebElement) (a v : string) : bool :=
  match get_attribute el a with
  | Some x => String.eqb x v
  | None => false
  end.

(** The [for el in ...: if ...: value = ...; break] loop.  [value] is the
    module-level variable of that name: when no [div] matches it keeps
    whatever it held, or stays unbound ([None]). *)
Fixpoint scan_class (divs : list WebElement) (value : option pyval) : option pyval :=
  match divs with
  | [] => value
  | el :: rest =>
      if has_attribute el "data-source" "class"
      then Some (VStr (innerText el))
      else scan_class rest value
  end.

(** [value.split("\n")[1].split("(")[0]]. *)
Definition class_of (value : option pyval) : Result string :=
  match value with
  | None => Raise NameError
  | Some (VStr s) =>
      line <- Py.item (Py.split Py.newline s) 1 ;;
      Py.item (Py.split "(" line) 0
  | Some (VInt _) | Some (VBool _) => Raise AttributeError
  end.

(** # Set price *)
Definition set_price (container : WebElement) (record : PyRecord) : Result PyRecord :=
  match find_elements container XPATH XPATH_PRICE with
  | [] => Ok record
  | element :: _ =>
      let price := innerText element in
      if Py.contains "$" price then
        let price :=
          Py.replace "(" " " (Py.replace Py.newline " " (Py.replace "," "" price)) in
        idx <- Py.index "$" price ;;
        token <- Py.item (Py.split " " (Py.slice_from idx price)) 0 ;;
        n <- Py.int (Py.replace "$" "" token) ;;
        Ok (dict_set "PRICE" (VInt n) record)
      else Ok record
  end.

(** # Set stats: the body of [for idx in range(4)]. *)
Definition stat_step (container : WebElement) (record : PyRecord) (idx : nat)
  : Result PyRecord :=
  title <- find_element container CLASS_NAME
             (Py.replace "container" ("name" ++ Py.str (idx + 1)) CLASS_STATS) ;;
  stats <- find_element container CLASS_NAME
             (Py.replace "container" ("data" ++ Py.str (idx + 1)) CLASS_STATS) ;;
  match find_elements stats XPATH "div[1]/div[1]" with
  | [] => Ok record
  | element :: _ => Ok (dict_set (innerText title) (VInt (size_width element)) record)
  end.

Definition set_stats (driver : WebElement) (record : PyRecord) : Result PyRecord :=
  match find_elements driver CLASS_NAME CLASS_STATS with
  | [] => Ok record
  | container :: _ => for_each (stat_step container) (seq 0 4) record
  end.

(** # Set info: the value of one info field. *)
Definition info_value (element : WebElement) : Result pyval :=
  let value := innerText element in
  if String.eqb value "" then
    element <- find_element element XPATH "img[1]" ;;
    match get_attribute element "data-image-name" with
    | None => Raise TypeError
    | Some name => Ok (VBool (Py.contains "Check" name))
    end
  else if Py.isnumeric value then
    n <- Py.int value ;; Ok (VInt n)
  else Ok (VStr value).

(** The body of [for idx in range(7)]; it leaves its result in [value]. *)
Definition info_step (container : WebElement) (st : PyRecord * option pyval) (idx : nat)
  : Result (PyRecord * option pyval) :=
  title <- find_element container CLASS_NAME
             (Py.replace "container" ("name" ++ Py.str (idx + 1)) CLASS_INFOS) ;;
  element <- find_element container CLASS_NAME
             (Py.replace "container" ("data" ++ Py.str (idx + 1)) CLASS_INFOS) ;;
  value <- info_value element ;;
  Ok (dict_set (innerText title) value (fst st), Some value).

Definition set_info (driver : WebElement) (st : PyRecord * option pyval)
  : Result (PyRecord * option pyval) :=
  match find_elements driver CLASS_NAME CLASS_INFOS with
  | [] => Ok st
  | container :: _ => for_each (info_step container) (seq 0 7) st
  end.

(** The hero part of the loop body: link, image and class. *)
Definition set_hero (driver : WebElement) (url : string) (value : option pyval)
  : Result (WebElement * PyRecord * option pyval) :=
  let record := dict_set "link" (VStr url) [] in
  container <- find_element driver CLASS_NAME "nohero" ;;
  element <- find_element container XPATH XPATH_IMAGE ;;
  image <- image_of (get_attribute element "href") ;;
  let record := dict_set "image" (VStr image) record in
  let value := scan_class (find_elements container TAG_NAME "div") value in
  class <- class_of value ;;
  Ok (container, dict_set "CLASS" (VStr class) record, value).

(** The loop body up to, and without, [data[name] = record]: the record of
    the page behind [url], and the new content of [value]. *)
Definition scrape (web : Browser) (url : option string) (value : option pyval)
  : Result (PyRecord * option pyval) :=
  match url with
  | None => Raise InvalidArgumentException
  | Some url =>
      driver <- web url ;;
      '(container, record, value) <- set_hero driver url value ;;
      record <- set_price container record ;;
      record <- set_stats driver record ;;
      set_info driver (record, value)
  end.

(* ================================================================== *)
(** * Get data from vehicle links: the loop *)

(** The module-level variables the loop carries from one item to the next. *)
Record Run : Type := mkRun {
  data : dict PyRecord;
  value : option pyval;
  cnt : nat
}.

Definition start : Run := mkRun [] None 0.

(** How the loop ends: it runs off the list or breaks ([Finished]), or an
    exception escapes and ends the program ([Aborted], with the catalog as it
    was at that moment). *)
Inductive Outcome : Type :=
| Finished (st : Run)
| Aborted (e : exn) (data : dict PyRecord).

Fixpoint traverse (limit : nat) (web : Browser)
         (items : list (string * option string)) (st : Run) : Outcome :=
  match items with
  | [] => Finished st
  | (name, url) :: rest =>
      let cnt' := cnt st + 1 in
      match scrape web url (value st) with
      | Raise e => Aborted e (data st)
      | Ok (record, value) =>
          let st' := mkRun (dict_set name record (data st)) value cnt' in
          if Nat.ltb limit cnt' then Finished st' else traverse limit web rest st'
      end
  end.

(** The loop ran through all of [items] and is ready for a next item. *)
Fixpoint through (limit : nat) (web : Browser)
         (items : list (string * option string)) (st : Run) : option Run :=
  match items with
  | [] => Some st
  | (name, url) :: rest =>
      match scrape web url (value st) with
      | Raise _ => None
      | Ok (record, value) =>
          let st' := mkRun (dict_set name record (data st)) value (cnt st + 1) in
          if Nat.ltb limit (cnt st + 1) then None else through limit web rest st'
      end
  end.

(* ================================================================== *)
(** * Create tabular data *)

Definition flat_record (vehicle : string) (values : PyRecord) : PyRecord :=
  fold_left (fun record kv => dict_set (fst kv) (snd kv) record)
            values [("Vehicle", VStr vehicle)].

Definition tabulate (data : dict PyRecord) : list PyRecord :=
  fold_left (fun table entry => table ++ [flat_record (fst entry) (snd entry)])
            data [].

(** ** The same loop on Python's object store

    A dictionary is an object; the catalog holds references to its records,
    and the table holds references to the dictionaries the loop creates.  The
    store is the list of all dictionary objects, a reference is a position
    in it. *)

Definition ref : Type := nat.
Definition Store : Type := list PyRecord.

Definition load (h : Store) (a : ref) : option PyRecord := nth_error h a.

Fixpoint store_at (h : Store) (a : ref) (r : PyRecord) : Store :=
  match h, a with
  | [], _ => []
  | _ :: h', O => r :: h'
  | x :: h', S a' => x :: store_at h' a' r
  end.

(** A dictionary display [{...}] creates a new object. *)
Definition alloc (h : Store) (r : PyRecord) : ref * Store := (List.length h, h ++ [r]).

(** [obj[key] = value] on the object behind [a]. *)
Definition setitem (h : Store) (a : ref) (key : string) (value : pyval) : Store :=
  match load h a with
  | Some r => store_at h a (dict_set key value r)
  | None => h
  end.

(** [obj.items()] of the object behind [a]. *)
Definition items_of (h : Store) (a : ref) : list (string * pyval) :=
  match load h a with
  | Some r => r
  | None => []
  end.

(** One turn of [for vehicle, values in data.items()]. *)
Definition table_row (st : list ref * Store) (entry : string * ref) : list ref * Store :=
  let '(table, h) := st in
  let '(vehicle, values) := entry in
  let '(record, h) := alloc h [("Vehicle", VStr vehicle)] in
  let h := fold_left (fun h kv => setitem h record (fst kv) (snd kv))
                     (items_of h values) h in
  (table ++ [record], h).

Definition table_loop (data : dict ref) (h : Store) : list ref * Store :=
  fold_left table_row data ([], h).

(** The catalog as objects: every record is a dictionary of its own. *)
Fixpoint store_catalog (data : dict PyRecord) (h : Store) : dict ref * Store :=
  match data with
  | [] => ([], h)
  | (name, r) :: rest =>
      let '(a, h1) := alloc h r in
      let '(d, h2) := store_catalog rest h1 in
      ((name, a) :: d, h2)
  end.

(* ================================================================== *)
(** * The program *)

(** What a run leaves behind: the printed diagnostics and the three JSON
    files, as far as the run got. *)
Record Output : Type := mkOutput {
  stdout : list string;
  gta_links_json : option (dict (option string));
  gta_vehicles_json : option (dict PyRecord);
  Vehicles_Table_json : option (list PyRecord);
  uncaught : option exn
}.

Definition main (web : Browser) : Output :=
  match (driver <- web URL_VEHICLE ;; get_element driver XPATH XPATH_TABLE) with
  | Raise e => mkOutput [] None None None (Some e)
  | Ok vehicle_table =>
      let h := harvest_links vehicle_table in
      match traverse LIMIT web (links h) start with
      | Aborted e _ => mkOutput (printed h) (Some (links h)) None None (Some e)
      | Finished st =>
          mkOutput (printed h) (Some (links h)) (Some (data st))
                   (Some (tabulate (data st))) None
      end
  end.

(* ================================================================== *)
(** * Test documents *)

Definition By_eqb (a b : By) : bool :=
  match a, b with
  | ID, ID | XPATH, XPATH | CSS_SELECTOR, CSS_SELECTOR
  | CLASS_NAME, CLASS_NAME | TAG_NAME, TAG_NAME => true
  | _, _ => false
  end.

Fixpoint matches (children : list (By * string * list WebElement))
         (by_method : By) (name : string) : list WebElement :=
  match children with
  | [] => []
  | (b, n, es) :: rest =>
      if By_eqb b by_method && String.eqb n name then es
      else matches rest by_method name
  end.

(** An element given by its text, attributes, width and query answers. *)
Definition node (text : string) (attrs : dict string) (w : Z)
           (children : list (By * string * list WebElement)) : WebElement :=
  mkElement text (fun a => dict_get a attrs) w (matches children).

Definition text_node (text : string) : WebElement := node text [] 0%Z [].

Definition anchor (text href : string) : WebElement :=
  node text [("href", href)] 0%Z [].

Definition list_item (a : list WebElement) : WebElement :=
  node "" [] 0%Z [(CSS_SELECTOR, "a", a)].

(** A listing table of one row and one cell with the given lists of items. *)
Definition table_of (lists : list (list WebElement)) : WebElement :=
  node "" [] 0%Z
    [(CSS_SELECTOR, "tr",
      [node "" [] 0%Z
         [(CSS_SELECTOR, "td",
           [node "" [] 0%Z
              [(CSS_SELECTOR, "ul",
                map (fun its => node "" [] 0%Z [(CSS_SELECTOR, "li", its)]) lists)]])]])].

Definition hero_of (image : list WebElement) (divs prices : list WebElement) : WebElement :=
  node "" [] 0%Z
    [(XPATH, XPATH_IMAGE, image); (TAG_NAME, "div", divs); (XPATH, XPATH_PRICE, prices)].

Definition page_of (hero stats infos : list WebElement) : WebElement :=
  node "" [] 0%Z
    [(CLASS_NAME, "nohero", hero); (CLASS_NAME, CLASS_STATS, stats);
     (CLASS_NAME, CLASS_INFOS, infos)].

Definition class_div (text : string) : WebElement :=
  node text [("data-source", "class")] 0%Z [].

(** A bar of the stats container: its filled part has the given widths. *)
Definition bar (widths : list Z) : WebElement :=
  node "" [] 0%Z [(XPATH, "div[1]/div[1]", map (fun w => node "" [] w []) widths)].

Definition stats_of (rows : list (string * list Z)) : WebElement :=
  node "" [] 0%Z
    (flat_map (fun ir =>
       [(CLASS_NAME, ("rssc-stats-name" ++ Py.str (fst ir + 1))%string, [text_node (fst (snd ir))]);
        (CLASS_NAME, ("rssc-stats-data" ++ Py.str (fst ir + 1))%string, [bar (snd (snd ir))])])
       (combine (seq 0 (List.length rows)) rows)).

(** An info value shown as an icon with the given image name. *)
Definition icon (name : string) : WebElement :=
  node "" [] 0%Z [(XPATH, "img[1]", [node "" [("data-image-name", name)] 0%Z []])].

Definition infos_of (rows : list (string * WebElement)) : WebElement :=
  node "" [] 0%Z
    (flat_map (fun ir =>
       [(CLASS_NAME, ("rssc-info-name" ++ Py.str (fst ir + 1))%string, [text_node (fst (snd ir))]);
        (CLASS_NAME, ("rssc-info-data" ++ Py.str (fst ir + 1))%string, [snd (snd ir)])])
       (combine (seq 0 (List.length rows)) rows)).

Definition class_text : string :=
  "Vehicle Class" ++ Py.newline ++ "Sports (needs translation)".

(** A complete vehicle page without stats and info. *)
Definition plain_page (href price : string) : WebElement :=
  page_of [hero_of [anchor "" href] [text_node "x"; class_div class_text] [text_node price]]
          [] [].

(** A vehicle page whose hero has no [div] with [data-source="class"]. *)
Definition classless_hero (href : string) : WebElement :=
  hero_of [anchor "" href] [text_node "x"; node "y" [("data-source", "title")] 0%Z []] [].

Definition classless_page (href : string) : WebElement :=
  page_of [classless_hero href] [] [].

Definition seven_infos (first : string * WebElement) : WebElement :=
  infos_of [first; ("Gears", text_node "6"); ("Seats", text_node "2");
            ("Radio", icon "Check-Yes.png"); ("Mass", text_node "1400");
            ("Drive", text_node "Rear-wheel drive"); ("Top", text_node "abc")].

Definition four_stats : WebElement :=
  stats_of [("Speed", [80%Z]); ("Acceleration", []); ("Braking", [33%Z; 5%Z]);
            ("Traction", [70%Z])].

Definition full_page (href : string) (first : string * WebElement) : WebElement :=
  page_of [hero_of [anchor "" href] [class_div class_text] [text_node "$1,234,567 (approx.)"]]
          [four_stats] [seven_infos first].

Definition site (pages : dict WebElement) : Browser :=
  fun url => match dict_get url pages with
             | Some p => Ok p
             | None => Raise InvalidArgumentException
             end.

(** A listing with three list items, the middle one without an anchor. *)
Definition listing : WebElement :=
  table_of [[list_item [anchor "Car A" "/wiki/A"]; list_item [];
             list_item [anchor "Car B" "/wiki/B"]]].

(** A small site: two complete pages, one whose hero has no class [div],
    one whose hero image is a JPEG, one with an info label "link" and one
    with an info label "Vehicle". *)
Definition demo_site : Browser :=
  site [("/wiki/A", plain_page ".../a.PNG?revision=3" "$500,000");
        ("/wiki/B", plain_page ".../b.png" "Not for sale");
        ("/wiki/C", classless_page ".../c.png");
        ("/wiki/D", plain_page ".../d.jpg" "$1");
        ("/wiki/E", full_page ".../e.png/revision/latest" ("link", text_node "7"));
        ("/wiki/V", full_page ".../v.png" ("Vehicle", text_node "Car"))].

Definition stats_page : WebElement :=
  page_of [hero_of [anchor "" ".../s.png"] [class_div class_text] []] [four_stats] [].

Definition four_titles (idx : nat) : WebElement :=
  text_node (nth idx ["Speed"; "Acceleration"; "Braking"; "Traction"] "").

Definition four_bars (idx : nat) : WebElement :=
  bar (nth idx [[80%Z]; []; [33%Z; 5%Z]; [70%Z]] []).

Definition price_hero (price : string) : WebElement :=
  hero_of [anchor "" ".../p.png"] [class_div class_text] [text_node price].

Definition price_page (price : string) : WebElement :=
  page_of [price_hero price] [] [].

(* ================================================================== *)
(** * Vocabulary of the statements *)

(** [sub] occurs in [s] at position [i]. *)
Definition occurs_at (sub s : string) (i : nat) : Prop :=
  substring i (String.length sub) s = sub.

(** The list items as the four nested loops visit them, one entry for each
    visit: rows, then cells, then lists, then items.  [find_elements]
    answers with every descendant that matches, so an item of a list that
    lies in another list is visited once for each of them. *)
Definition list_items (vehicle_table : WebElement) : list WebElement :=
  flat_map (fun row =>
    flat_map (fun cell =>
      flat_map (fun list => find_elements list CSS_SELECTOR "li")
               (find_elements cell CSS_SELECTOR "ul"))
      (find_elements row CSS_SELECTOR "td"))
    (find_elements vehicle_table CSS_SELECTOR "tr").

(** The (display name, URL) pair of a list item, if it has an anchor. *)
Definition entry_of (item : WebElement) : option (string * option string) :=
  match find_elements item CSS_SELECTOR "a" with
  | link :: _ => Some (innerText link, get_attribute link "href")
  | [] => None
  end.

Fixpoint entries (items : list WebElement) : list (string * option string) :=
  match items with
  | [] => []
  | item :: rest =>
      match entry_of item with
      | Some e => e :: entries rest
      | None => entries rest
      end
  end.

Definition without_anchor (items : list WebElement) : list WebElement :=
  filter (fun item => match entry_of item with None => true | Some _ => false end) items.

(** The dictionary a sequence of assignments [d[k] = v] builds. *)
Definition assign_all {V : Type} (kvs : list (string * V)) (d : dict V) : dict V :=
  fold_left (fun d kv => dict_set (fst kv) (snd kv) d) kvs d.

(** The catalog a run leaves in memory. *)
Definition catalog (o : Outcome) : dict PyRecord :=
  match o with
  | Finished st => data st
  | Aborted _ d => d
  end.

(** The label texts the stats and info loops of a page may use as keys. *)
Definition label_at (container : WebElement) (class : string) (idx : nat) : list string :=
  match find_element container CLASS_NAME
          (Py.replace "container" ("name" ++ Py.str (idx + 1)) class) with
  | Ok title => [innerText title]
  | Raise _ => []
  end.

Definition labels_in (driver : WebElement) (class : string) (n : nat) : list string :=
  match find_elements driver CLASS_NAME class with
  | container :: _ => flat_map (label_at container class) (seq 0 n)
  | [] => []
  end.

Definition labels (driver : WebElement) : list string :=
  labels_in driver CLASS_STATS 4 ++ labels_in driver CLASS_INFOS 7.

(** [r'] is [r] after assignments to keys of [L] only: the keys of [r] stay
    where they are, every field outside [L] keeps its value, and no key
    appears twice if none did. *)
Definition grows (L : list string) (r r' : PyRecord) : Prop :=
  (exists extra, keys r' = keys r ++ extra) /\
  (forall k, ~ In k L -> dict_get k r' = dict_get k r) /\
  (dict_wf r -> dict_wf r').

(** The value of a text made of decimal digits. *)
Fixpoint decimal_value (s : string) (acc : Z) : Z :=
  match s with
  | EmptyString => acc
  | String c s' => decimal_value s' (acc * 10 + Z.of_nat (nat_of_ascii c - 48))%Z
  end.

(** A stats container: the first four labels and bars, and what the loop
    makes of them when every label and bar is found. *)
Definition stat_field (title stats : nat -> WebElement) (record : PyRecord) (idx : nat)
  : PyRecord :=
  match find_elements (stats idx) XPATH "div[1]/div[1]" with
  | [] => record
  | element :: _ => dict_set (innerText (title idx)) (VInt (size_width element)) record
  end.

(* ================================================================== *)
(** * Vocabulary for the rest of the script *)

(** The value the last assignment to [k] in a sequence of assignments
    gave it. *)
Fixpoint last_value {V : Type} (k : string) (kvs : list (string * V)) : option V :=
  match kvs with
  | [] => None
  | (k', v) :: rest =>
      match last_value k rest with
      | Some x => Some x
      | None => if String.eqb k' k then Some v else None
      end
  end.

Definition mem (k : string) (ks : list string) : bool := existsb (String.eqb k) ks.

(** The names of [ks] that are not in [seen], each at its first occurrence. *)
Fixpoint firsts (seen ks : list string) : list string :=
  match ks with
  | [] => []
  | k :: rest => if mem k seen then firsts seen rest else k :: firsts (seen ++ [k]) rest
  end.

(** The text has no character [c]. *)
Definition lacks (c : ascii) (s : string) : bool :=
  Py.all_chars (fun x => negb (Ascii.eqb x c)) s.

(** The text is empty or begins with one of the characters of [cs]. *)
Definition ends_or_starts_with (cs : list ascii) (s : string) : Prop :=
  match s with
  | EmptyString => True
  | String c _ => In c cs
  end.

Definition is_price_char (c : ascii) : bool :=
  Py.is_decimal_char c || Ascii.eqb c ","%char.

Definition blank : ascii := " "%char.
Definition newline_char : ascii := ascii_of_nat 10.
Definition paren : ascii := "("%char.
Definition dollar : ascii := "$"%char.

(** A listing in which the name "Car A" occurs twice. *)
Definition listing_twice : WebElement :=
  table_of [[list_item [anchor "Car A" "/wiki/A"]; list_item [anchor "Car B" "/wiki/B"]];
            [list_item []; list_item [anchor "Car A" "/wiki/A2"]]].

(** The demo site with a listing page at the script's start URL. *)
Definition listing_page : WebElement :=
  node "" [] 0%Z
    [(XPATH, XPATH_TABLE,
      [table_of [[list_item [anchor "Car A" "/wiki/A"]; list_item [];
                  list_item [anchor "Car D" "/wiki/D"];
                  list_item [anchor "Car B" "/wiki/B"]]]])].

Definition demo_web : Browser :=
  fun url => if String.eqb url URL_VEHICLE then Ok listing_page else demo_site url.

(** A page whose stats container has the first label and bar only. *)
Definition one_stat_page : WebElement :=
  page_of [hero_of [anchor "" ".../o.png"] [class_div class_text] []]
          [stats_of [("Speed", [80%Z])]] [].

(** A page whose info container has the first label and value only. *)
Definition one_info_page : WebElement :=
  page_of [hero_of [anchor "" ".../i.png"] [class_div class_text] []]
          [] [infos_of [("Gears", text_node "6")]].

(** A site of two pages: one whose last info value is a number, and one
    without class [div]. *)
Definition numeric_last_page : WebElement :=
  page_of [hero_of [anchor "" ".../n.png"] [class_div class_text] []] []
          [infos_of [("Drive", text_node "Rear-wheel drive"); ("Gears", text_node "6");
                     ("Radio", icon "Check-Yes.png"); ("Mass", text_node "1400");
                     ("Doors", text_node "2"); ("Top", text_node "abc");
                     ("Seats", text_node "2")]].

Definition stale_site : Browser :=
  site [("/wiki/N", numeric_last_page); ("/wiki/C", classless_page ".../c.png")].

(** The three replacements before the search for "$". *)
Definition tidy (price : string) : string :=
  Py.replace "(" " " (Py.replace Py.newline " " (Py.replace "," "" price)).

(** What the info loop makes of index [idx] when its label is [title idx]
    and its value [val idx]. *)
Definition info_field (title : nat -> WebElement) (val : nat -> pyval)
           (record : PyRecord) (idx : nat) : PyRecord :=
  dict_set (innerText (title idx)) (val idx) record.

(** The labels, value elements and values of [numeric_last_page]. *)
Definition seven_titles (idx : nat) : WebElement :=
  text_node (nth idx ["Drive"; "Gears"; "Radio"; "Mass"; "Doors"; "Top"; "Seats"] "").

Definition seven_elements (idx : nat) : WebElement :=
  nth idx [text_node "Rear-wheel drive"; text_node "6"; icon "Check-Yes.png";
           text_node "1400"; text_node "2"; text_node "abc"; text_node "2"]
      (text_node "").

Definition seven_values (idx : nat) : pyval :=
  nth idx [VStr "Rear-wheel drive"; VInt 6; VBool true; VInt 1400; VInt 2; VStr "abc";
           VInt 2] (VStr "").

(* ================================================================== *)
(** * Set image on texts of any code points

    [Py] reads a text as code points below 256.  Line 190 is the one
    expression of the script whose result is another beyond them:
    [str.lower] replaces each code point by its lower-case mapping, and the
    mapping of U+0130 (capital I with dot above) is two code points, so a
    position in [url.lower()] need not be that position in [url].  Here the
    same expression is written over lists of code points, with the
    lower-case mapping as a parameter. *)
Module Uni.

Definition text : Type := list nat.

Definition of_string (s : string) : text := map nat_of_ascii (list_ascii_of_string s).

(** The lower-case mapping: the code points that replace a code point.
    (The one rule of [str.lower] that looks at the neighbours, the final
    sigma, chooses between two single code points and is left out.) *)
Definition casing : Type := nat -> text.

(** [s.lower()]. *)
Definition lower (T : casing) (s : text) : text := flat_map T s.

Fixpoint starts_with (sub s : text) : bool :=
  match sub, s with
  | [], _ => true
  | a :: sub', b :: s' => Nat.eqb a b && starts_with sub' s'
  | _ :: _, [] => false
  end.

(** [str.find]: lowest position at which [sub] occurs. *)
Fixpoint find (sub s : text) : option nat :=
  if starts_with sub s then Some 0
  else match s with
       | [] => None
       | _ :: s' => option_map S (find sub s')
       end.

(** [s.index(sub)]. *)
Definition index (sub s : text) : Result nat :=
  match find sub s with
  | Some i => Ok i
  | None => Raise ValueError
  end.

Definition png : text := of_string ".png".

(** [url[: url.lower().index(".png") + 4]]. *)
Definition image_of (T : casing) (url : text) : Result text :=
  i <- index png (lower T url) ;;
  Ok (firstn (i + 4) url).

(** The Unicode lower-case mapping of the code points up to U+0130: below
    U+0100 as [Py.lower_char] has it, from U+0100 to U+012F the capitals
    are the even code points and their small letters follow them, and
    U+0130 becomes "i" and U+0307 (combining dot above).  Code points
    above U+0130 are left as they are; the statements use none of them. *)
Definition lower_case : casing := fun c =>
  if Nat.ltb c 256 then [nat_of_ascii (Py.lower_char (ascii_of_nat c))]
  else if Nat.ltb c 304 then [if Nat.even c then c + 1 else c]
  else if Nat.eqb c 304 then [105; 775]
  else [c].


(** Every code point of [s] has a lower-case mapping of one code point. *)
Definition one_to_one (T : casing) (s : text) : Prop :=
  Forall (fun c => exists d, T c = [d]) s.


End Uni.

(* ================================================================== *)
(** * Vocabulary for texts beyond the digits and for nested lists *)

(** The superscripts U+00B2, U+00B3, U+00B9 and the fractions U+00BC,
    U+00BD, U+00BE: numeric for [str.isnumeric], no digits for [int]. *)
Definition is_superscript_or_fraction (c : ascii) : bool :=
  let n := nat_of_ascii c in
  Nat.eqb n 178 || Nat.eqb n 179 || Nat.eqb n 185 ||
  Nat.eqb n 188 || Nat.eqb n 189 || Nat.eqb n 190.

(** A listing whose first item holds a list of its own.  [find_elements]
    answers with every descendant that matches: the cell has two lists,
    the outer list three items, and the first item two anchors. *)
Definition inner_item : WebElement := list_item [anchor "Car Y" "/wiki/Y2"].

Definition outer_item : WebElement :=
  list_item [anchor "Car X" "/wiki/X"; anchor "Car Y" "/wiki/Y2"].

Definition last_item : WebElement := list_item [anchor "Car Y" "/wiki/Y3"].

Definition nested_listing : WebElement :=
  table_of [[outer_item; inner_item; last_item]; [inner_item]].

(* ================================================================== *)
(** * Proof steps used throughout *)

(** A closed list of strings has no element twice. *)
Ltac distinct_strings := repeat constructor; simpl; intuition discriminate.

(** Follow a computation that must have succeeded: case on the result of
    [t], keep the [Ok] branch. *)
Ltac succeeded t x := destruct t as [x|?]; cbn [bind]; [|discriminate].

(* ================================================================== *)
(** * Strings: what the operations compute *)

Lemma substring_0_all (s : string) : substring 0 (String.length s) s = s.
Proof. induction s as [|c s IH]; simpl; [reflexivity | now rewrite IH]. Qed.

Lemma substring_empty (i n : nat) : substring i n EmptyString = EmptyString.
Proof. destruct i, n; reflexivity. Qed.

Lemma substring_0_add (s : string) : forall i n,
  substring 0 (i + n) s = (substring 0 i s ++ substring i n s)%string.
Proof.
  induction s as [|c s IH]; intros i n.
  - now rewrite !substring_empty.
  - destruct i as [|i]; simpl.
    + now destruct n.
    + now rewrite IH.
Qed.

Lemma substring_cut (s : string) : forall k,
  s = (substring 0 k s ++ substring k (String.length s - k) s)%string.
Proof.
  induction s as [|c s IH]; intros k.
  - now rewrite !substring_empty.
  - destruct k as [|k]; simpl.
    + now rewrite substring_0_all.
    + now rewrite <- IH.
Qed.

Lemma lower_length (s : string) : String.length (Py.lower s) = String.length s.
Proof. induction s as [|c s IH]; simpl; congruence. Qed.

Lemma lower_substring (s : string) : forall i n,
  Py.lower (substring i n s) = substring i n (Py.lower s).
Proof.
  induction s as [|c s IH]; intros i n.
  - now rewrite !substring_empty.
  - destruct i as [|i], n as [|n]; simpl; try reflexivity; now rewrite IH.
Qed.

Lemma occurs_at_0 (sub s : string) : occurs_at sub s 0 <-> prefix sub s = true.
Proof. unfold occurs_at. symmetry. apply prefix_correct. Qed.

Lemma find_unfold (sub s : string) :
  Py.find sub s =
  if prefix sub s then Some 0
  else match s with
       | EmptyString => None
       | String _ s' => option_map S (Py.find sub s')
       end.
Proof. destruct s; reflexivity. Qed.

(** [find] returns the first occurrence. *)
Lemma find_some (sub s : string) : forall i,
  Py.find sub s = Some i ->
  occurs_at sub s i /\ forall j, j < i -> ~ occurs_at sub s j.
Proof.
  induction s as [|c s IH]; intros i; rewrite find_unfold;
    destruct (prefix sub _) eqn:P.
  - intros [= <-]. split; [now apply occurs_at_0 | lia].
  - discriminate.
  - intros [= <-]. split; [now apply occurs_at_0 | lia].
  - destruct (Py.find sub s) as [k|]; [|discriminate].
    intros [= <-]. destruct (IH k eq_refl) as [Hk Hlt]. split.
    + exact Hk.
    + intros [|j] Hj.
      * rewrite occurs_at_0. congruence.
      * apply (Hlt j). lia.
Qed.

(** [find] fails only when there is no occurrence at all. *)
Lemma find_none (sub s : string) :
  Py.find sub s = None -> forall j, ~ occurs_at sub s j.
Proof.
  induction s as [|c s IH]; rewrite find_unfold;
    destruct (prefix sub _) eqn:P; try discriminate; intros H j Hj.
  - unfold occurs_at in Hj. rewrite substring_empty in Hj.
    rewrite <- Hj in P. discriminate.
  - destruct (Py.find sub s); [discriminate|].
    destruct j as [|j].
    + apply occurs_at_0 in Hj. congruence.
    + exact (IH eq_refl j Hj).
Qed.

Lemma contains_false (sub s : string) :
  Py.contains sub s = false <-> forall j, ~ occurs_at sub s j.
Proof.
  unfold Py.contains. destruct (Py.find sub s) as [i|] eqn:F; split; intro H.
  - discriminate.
  - destruct (find_some _ _ _ F) as [Hi _]. now elim (H i).
  - now apply find_none.
  - reflexivity.
Qed.

(* ================================================================== *)
(** * Set image *)

Example image_of_car : image_of (Some ".../car.PNG?revision=3") = Ok ".../car.PNG".
Proof. reflexivity. Qed.

(* ================================================================== *)
(** * Dictionaries: assignment and lookup *)

Lemma dict_get_set_same {V : Type} (k : string) (v : V) (d : dict V) :
  dict_get k (dict_set k v d) = Some v.
Proof.
  induction d as [|[k' v'] d IH]; simpl.
  - now rewrite String.eqb_refl.
  - destruct (String.eqb k' k) eqn:E; simpl; now rewrite E.
Qed.

Lemma dict_get_set_other {V : Type} (k k' : string) (v : V) (d : dict V) :
  k <> k' -> dict_get k' (dict_set k v d) = dict_get k' d.
Proof.
  intros Hne. induction d as [|[k0 v0] d IH]; simpl.
  - destruct (String.eqb_spec k k'); [contradiction | reflexivity].
  - destruct (String.eqb_spec k0 k) as [->|]; simpl.
    + destruct (String.eqb_spec k k'); [contradiction | reflexivity].
    + now rewrite IH.
Qed.

Lemma dict_get_none {V : Type} (k : string) (d : dict V) :
  dict_get k d = None <-> ~ In k (keys d).
Proof.
  induction d as [|[k0 v0] d IH]; simpl.
  - tauto.
  - destruct (String.eqb_spec k0 k) as [->|Hne].
    + split; [discriminate | tauto].
    + rewrite IH. tauto.
Qed.

Lemma dict_get_in {V : Type} (k : string) (v : V) (d : dict V) :
  dict_get k d = Some v -> In (k, v) d.
Proof.
  induction d as [|[k0 v0] d IH]; simpl; [discriminate|].
  destruct (String.eqb_spec k0 k) as [->|Hne].
  - intros [= ->]. now left.
  - intros H. right. now apply IH.
Qed.

(** Assigning to a key that is there keeps every key in its place. *)
Lemma keys_set_old {V : Type} (k : string) (v : V) (d : dict V) :
  In k (keys d) -> keys (dict_set k v d) = keys d.
Proof.
  induction d as [|[k0 v0] d IH]; simpl; [tauto|].
  destruct (String.eqb_spec k0 k) as [->|Hne]; simpl.
  - reflexivity.
  - intros [H|H]; [contradiction | now rewrite IH].
Qed.

(** Assigning to a new key appends the entry. *)
Lemma dict_set_new {V : Type} (k : string) (v : V) (d : dict V) :
  ~ In k (keys d) -> dict_set k v d = d ++ [(k, v)].
Proof.
  induction d as [|[k0 v0] d IH]; simpl; [reflexivity|].
  intros H. destruct (String.eqb_spec k0 k) as [->|Hne].
  - tauto.
  - rewrite IH; tauto.
Qed.

Lemma keys_set_cases {V : Type} (k : string) (v : V) (d : dict V) :
  keys (dict_set k v d) = keys d \/ keys (dict_set k v d) = keys d ++ [k].
Proof.
  destruct (in_dec string_dec k (keys d)) as [H|H].
  - left. now apply keys_set_old.
  - right. rewrite dict_set_new by assumption. unfold keys. now rewrite map_app.
Qed.

Lemma dict_set_wf {V : Type} (k : string) (v : V) (d : dict V) :
  dict_wf d -> dict_wf (dict_set k v d).
Proof.
  unfold dict_wf. intros Hwf.
  destruct (in_dec string_dec k (keys d)) as [H|H].
  - now rewrite keys_set_old.
  - rewrite dict_set_new by assumption. unfold keys in *. rewrite map_app. simpl.
    apply NoDup_app; [assumption | repeat constructor; simpl; tauto |].
    intros x Hx [<-|[]]. contradiction.
Qed.

Lemma assign_all_wf {V : Type} (kvs : list (string * V)) : forall d,
  dict_wf d -> dict_wf (assign_all kvs d).
Proof.
  induction kvs as [|[k v] kvs IH]; intros d Hd; simpl; [assumption|].
  apply IH. now apply dict_set_wf.
Qed.

(** Assigning entries with fresh, distinct keys appends them in order. *)
Lemma assign_all_fresh {V : Type} (kvs : list (string * V)) : forall d,
  NoDup (keys d ++ keys kvs) -> assign_all kvs d = d ++ kvs.
Proof.
  induction kvs as [|[k v] kvs IH]; intros d Hnd; simpl.
  - now rewrite app_nil_r.
  - simpl in Hnd. rewrite dict_set_new.
    + rewrite IH.
      * now rewrite <- app_assoc.
      * unfold keys in *. rewrite map_app. simpl. rewrite <- app_assoc. exact Hnd.
    + apply NoDup_remove_2 in Hnd. intros H. apply Hnd. apply in_or_app. now left.
Qed.

Lemma assign_all_keeps_keys {V : Type} (kvs : list (string * V)) : forall d k,
  In k (keys d) -> In k (keys (assign_all kvs d)).
Proof.
  induction kvs as [|[k0 v0] kvs IH]; intros d k Hk; simpl; [assumption|].
  apply IH. destruct (keys_set_cases k0 v0 d) as [-> | ->];
    [assumption | apply in_or_app; now left].
Qed.

Lemma assign_all_has_keys {V : Type} (kvs : list (string * V)) : forall d k,
  In k (keys kvs) -> In k (keys (assign_all kvs d)).
Proof.
  induction kvs as [|[k0 v0] kvs IH]; intros d k; simpl; [tauto|].
  intros [<-|H].
  - apply assign_all_keeps_keys.
    destruct (in_dec string_dec k0 (keys (dict_set k0 v0 d))) as [H|H]; [assumption|].
    apply dict_get_none in H. now rewrite dict_get_set_same in H.
  - now apply IH.
Qed.

(* ================================================================== *)
(** * Get vehicle links *)

Lemma fold_left_flat_map {A B S : Type} (f : S -> B -> S) (g : A -> list B)
      (xs : list A) : forall s,
  fold_left (fun s x => fold_left f (g x) s) xs s = fold_left f (flat_map g xs) s.
Proof.
  induction xs as [|x xs IH]; intros s; simpl; [reflexivity|].
  now rewrite fold_left_app, IH.
Qed.

Lemma fold_left_pointwise {A S : Type} (f g : S -> A -> S) (xs : list A) :
  (forall s x, f s x = g s x) -> forall s, fold_left f xs s = fold_left g xs s.
Proof.
  intros H. induction xs as [|x xs IH]; intros s; simpl; [reflexivity|].
  now rewrite H, IH.
Qed.

(** The four nested loops visit the list items in document order. *)
Lemma harvest_from_items (vehicle_table : WebElement) (st : Harvest) :
  harvest_from vehicle_table st = fold_left harvest_item (list_items vehicle_table) st.
Proof.
  unfold harvest_from, list_items.
  rewrite <- fold_left_flat_map.
  apply fold_left_pointwise. intros st1 row.
  rewrite <- fold_left_flat_map.
  apply fold_left_pointwise. intros st2 cell.
  now rewrite <- fold_left_flat_map.
Qed.

Lemma harvest_items (items : list WebElement) : forall st,
  fold_left harvest_item items st =
  mkHarvest (assign_all (entries items) (links st))
            (printed st ++ repeat LINK_NOT_FOUND (List.length (without_anchor items))).
Proof.
  induction items as [|item items IH]; intros [l p]; simpl.
  - now rewrite app_nil_r.
  - rewrite IH. unfold harvest_item, find_element, entry_of.
    destruct (find_elements item CSS_SELECTOR "a") as [|link more]; simpl.
    + now rewrite <- app_assoc.
    + reflexivity.
Qed.

(** The links are a dictionary: no display name twice. *)
Lemma harvest_links_wf (vehicle_table : WebElement) :
  dict_wf (links (harvest_links vehicle_table)).
Proof.
  unfold harvest_links. rewrite harvest_from_items, harvest_items. simpl.
  apply assign_all_wf. constructor.
Qed.

Lemma entries_skip (pre post : list WebElement) (item : WebElement) :
  entry_of item = None -> entries (pre ++ item :: post) = entries (pre ++ post).
Proof.
  intros H. induction pre as [|x pre IH]; simpl.
  - now rewrite H.
  - now rewrite IH.
Qed.

(** C5.  The harvest assigns, in document order, the (display name, URL)
    pair of every list item that has an anchor, and prints one diagnostic
    for every list item that has none; such an item adds nothing and stops
    nothing: the links are those of the table without it.  Every anchor's
    name ends up as a key, and when the names are distinct the links are
    exactly the pairs in document order. *)
Theorem harvest_skips_items_without_anchor (vehicle_table : WebElement) :
  let items := list_items vehicle_table in
  let h := harvest_links vehicle_table in
  links h = assign_all (entries items) [] /\
  printed h = repeat LINK_NOT_FOUND (List.length (without_anchor items)) /\
  (forall pre item post,
      items = pre ++ item :: post -> find_elements item CSS_SELECTOR "a" = [] ->
      In item (without_anchor items) /\
      links h = assign_all (entries (pre ++ post)) []) /\
  (forall name url, In (name, url) (entries items) -> In name (keys (links h))) /\
  (NoDup (keys (entries items)) -> links h = entries items).
Proof.
  intros items h. unfold h, harvest_links.
  rewrite harvest_from_items, harvest_items. fold items. simpl.
  split; [reflexivity|]. split; [reflexivity|]. split; [|split].
  - intros pre item post Hitems Hnone.
    assert (Hentry : entry_of item = None) by (unfold entry_of; now rewrite Hnone).
    rewrite Hitems. split.
    + unfold without_anchor. apply filter_In. split.
      * apply in_or_app. right. now left.
      * now rewrite Hentry.
    + now rewrite entries_skip.
  - intros name url Hin. apply assign_all_has_keys.
    unfold keys. now apply (in_map fst) in Hin.
  - intros Hnd. now rewrite assign_all_fresh.
Qed.

Lemma harvest_skips_items_without_anchor_witness :
  links (harvest_links listing) = [("Car A", Some "/wiki/A"); ("Car B", Some "/wiki/B")] /\
  printed (harvest_links listing) = [LINK_NOT_FOUND].
Proof.
  destruct (harvest_skips_items_without_anchor listing) as (_ & Hprinted & _ & _ & Hlinks).
  split.
  - rewrite Hlinks; [reflexivity|].
    vm_compute. distinct_strings.
  - rewrite Hprinted. reflexivity.
Defined.

(* ================================================================== *)
(** * The loop over the links *)

Section Loop.

Variable limit : nat.
Variable web : Browser.

Lemma traverse_cons (name : string) (url : option string)
      (rest : list (string * option string)) (st : Run) :
  traverse limit web ((name, url) :: rest) st =
  match scrape web url (value st) with
  | Raise e => Aborted e (data st)
  | Ok (record, value) =>
      let st' := mkRun (dict_set name record (data st)) value (cnt st + 1) in
      if Nat.ltb limit (cnt st + 1) then Finished st' else traverse limit web rest st'
  end.
Proof. reflexivity. Qed.

(** Items the loop ran through can be forgotten. *)
Lemma through_traverse (pre : list (string * option string)) :
  forall rest st st1,
    through limit web pre st = Some st1 ->
    traverse limit web (pre ++ rest) st = traverse limit web rest st1.
Proof.
  induction pre as [|[name url] pre IH]; intros rest st st1; simpl.
  - now intros [= ->].
  - destruct (scrape web url (value st)) as [[record v]|e]; [|discriminate].
    destruct (Nat.ltb limit (cnt st + 1)); [discriminate|].
    apply IH.
Qed.

(** Every item the loop ran through put its name into the catalog. *)
Lemma through_keys (pre : list (string * option string)) :
  forall st st1,
    through limit web pre st = Some st1 ->
    NoDup (keys (data st) ++ keys pre) ->
    keys (data st1) = keys (data st) ++ keys pre.
Proof.
  induction pre as [|[name url] pre IH]; intros st st1; simpl.
  - intros [= ->] _. now rewrite app_nil_r.
  - destruct (scrape web url (value st)) as [[record v]|e]; [|discriminate].
    destruct (Nat.ltb limit (cnt st + 1)); [discriminate|].
    intros Hthrough Hnd.
    assert (Hnew : ~ In name (keys (data st))).
    { apply NoDup_remove_2 in Hnd. intros H. apply Hnd. apply in_or_app. now left. }
    assert (Hkeys : keys (dict_set name record (data st)) = keys (data st) ++ [name]).
    { rewrite dict_set_new by assumption. unfold keys. now rewrite map_app. }
    apply IH in Hthrough; simpl data in *.
    + rewrite Hthrough, Hkeys, <- app_assoc. reflexivity.
    + rewrite Hkeys, <- app_assoc. exact Hnd.
Qed.

(** With distinct names, a loop that ends normally has catalogued the
    first [limit - cnt + 1] of its items. *)
Lemma traverse_keys (items : list (string * option string)) :
  forall st st1,
    traverse limit web items st = Finished st1 ->
    NoDup (keys (data st) ++ keys items) ->
    keys (data st1) = keys (data st) ++ firstn (S (limit - cnt st)) (keys items).
Proof.
  induction items as [|[name url] items IH]; intros st st1.
  - simpl. intros [= ->] _. now rewrite app_nil_r.
  - rewrite traverse_cons.
    destruct (scrape web url (value st)) as [[record v]|e]; [|discriminate].
    intros Hrun Hnd. simpl in Hnd.
    assert (Hnew : ~ In name (keys (data st))).
    { apply NoDup_remove_2 in Hnd. intros H. apply Hnd. apply in_or_app. now left. }
    assert (Hkeys : keys (dict_set name record (data st)) = keys (data st) ++ [name]).
    { rewrite dict_set_new by assumption. unfold keys. now rewrite map_app. }
    cbv zeta in Hrun.
    destruct (Nat.ltb_spec limit (cnt st + 1)) as [Hlt|Hge].
    + injection Hrun as <-. simpl data. rewrite Hkeys.
      replace (limit - cnt st) with 0 by lia. reflexivity.
    + apply IH in Hrun; simpl data in *; simpl cnt in *.
      * rewrite Hrun, Hkeys, <- app_assoc. simpl.
        replace (limit - cnt st) with (S (limit - (cnt st + 1))) by lia. reflexivity.
      * rewrite Hkeys, <- app_assoc. exact Hnd.
Qed.

End Loop.

(** C1 (as the code has it).  The check [cnt > LIMIT] comes after
    [data[name] = record]: a run that ends normally has catalogued the first
    [limit + 1] links, so with more than [limit] links the catalog has
    [limit + 1] records, one more than the cap. *)
Theorem cap_lets_one_more_item_in (limit : nat) (web : Browser)
        (items : list (string * option string)) (st : Run) :
  NoDup (keys items) ->
  traverse limit web items start = Finished st ->
  keys (data st) = firstn (limit + 1) (keys items) /\
  (limit < List.length items -> List.length (data st) = limit + 1).
Proof.
  intros Hnd Hrun. apply traverse_keys in Hrun; [|exact Hnd].
  unfold start in Hrun. cbn [data cnt keys map app] in Hrun. rewrite Nat.sub_0_r in Hrun.
  replace (limit + 1) with (S limit) by lia. split; [exact Hrun|].
  intros Hlen.
  assert (H : List.length (keys (data st)) = S limit).
  { rewrite Hrun, length_firstn. unfold keys. rewrite length_map. lia. }
  unfold keys in H. now rewrite length_map in H.
Qed.

Lemma cap_lets_one_more_item_in_witness :
  exists st,
    traverse 1 demo_site
      [("Car A", Some "/wiki/A"); ("Car B", Some "/wiki/B"); ("Car E", Some "/wiki/E")]
      start = Finished st /\
    keys (data st) = ["Car A"; "Car B"] /\
    List.length (data st) = 2.
Proof.
  assert (Hnd : NoDup (keys [("Car A", Some "/wiki/A"); ("Car B", Some "/wiki/B");
                            ("Car E", Some "/wiki/E")])).
  { vm_compute. distinct_strings. }
  destruct (traverse 1 demo_site
              [("Car A", Some "/wiki/A"); ("Car B", Some "/wiki/B"); ("Car E", Some "/wiki/E")]
              start) as [st|e d] eqn:Hrun.
  - exists st. split; [reflexivity|].
    destruct (cap_lets_one_more_item_in 1 demo_site _ st Hnd Hrun) as [Hk Hl].
    split; [exact Hk | apply Hl; simpl; lia].
  - vm_compute in Hrun. discriminate.
Defined.

(* ================================================================== *)
(** * Set image and class: what can go wrong *)

Lemma image_of_no_png (href : string) :
  (forall j, ~ occurs_at ".png" (Py.lower href) j) ->
  image_of (Some href) = Raise ValueError.
Proof.
  intros Hno. unfold image_of, Py.index.
  destruct (Py.find ".png" (Py.lower href)) as [i|] eqn:F; [|reflexivity].
  destruct (find_some _ _ _ F) as [Hi _]. elim (Hno i Hi).
Qed.

(** Up to the image, the loop body only needs the hero and its anchor. *)
Lemma set_hero_unfold (driver container element : WebElement) (url : string)
      (value : option pyval) :
  find_element driver CLASS_NAME "nohero" = Ok container ->
  find_element container XPATH XPATH_IMAGE = Ok element ->
  set_hero driver url value =
  (image <- image_of (get_attribute element "href") ;;
   class <- class_of (scan_class (find_elements container TAG_NAME "div") value) ;;
   Ok (container,
       dict_set "CLASS" (VStr class)
         (dict_set "image" (VStr image) (dict_set "link" (VStr url) [])),
       scan_class (find_elements container TAG_NAME "div") value)).
Proof.
  intros Hc He. unfold set_hero.
  rewrite Hc. cbn [bind]. rewrite He. reflexivity.
Qed.

Lemma scrape_hero_raises (web : Browser) (driver : WebElement) (url : string)
      (value : option pyval) (e : exn) :
  web url = Ok driver ->
  set_hero driver url value = Raise e ->
  scrape web (Some url) value = Raise e.
Proof.
  intros Hw Hh. unfold scrape.
  rewrite Hw. cbn [bind]. rewrite Hh. reflexivity.
Qed.

(** C10.  When the loop reaches an item whose hero image URL has no ".png"
    in any mix of cases, the search for it raises [ValueError]; nothing
    catches it, so the run ends there with the catalog exactly as the
    earlier items left it, and without an entry for that item. *)
Theorem no_png_aborts_before_insertion (limit : nat) (web : Browser)
        (pre post : list (string * option string)) (name url href : string)
        (st : Run) (driver container element : WebElement) :
  NoDup (keys (pre ++ (name, Some url) :: post)) ->
  through limit web pre start = Some st ->
  web url = Ok driver ->
  find_element driver CLASS_NAME "nohero" = Ok container ->
  find_element container XPATH XPATH_IMAGE = Ok element ->
  get_attribute element "href" = Some href ->
  (forall j, ~ occurs_at ".png" (Py.lower href) j) ->
  image_of (Some href) = Raise ValueError /\
  traverse limit web (pre ++ (name, Some url) :: post) start
    = Aborted ValueError (data st) /\
  keys (data st) = keys pre /\
  dict_get name (data st) = None.
Proof.
  intros Hnd Hpre Hweb Hc He Hhref Hno.
  pose proof (image_of_no_png href Hno) as Himg.
  assert (Hkeys : keys (data st) = keys pre).
  { apply through_keys in Hpre; [exact Hpre|]. simpl.
    unfold keys in Hnd. rewrite map_app in Hnd. now apply NoDup_app_remove_r in Hnd. }
  repeat split.
  - exact Himg.
  - rewrite (through_traverse _ _ _ _ _ _ Hpre), traverse_cons.
    rewrite (scrape_hero_raises web driver url (value st) ValueError Hweb); [reflexivity|].
    rewrite (set_hero_unfold _ _ _ _ _ Hc He), Hhref, Himg. reflexivity.
  - exact Hkeys.
  - apply dict_get_none. rewrite Hkeys.
    unfold keys in Hnd. rewrite map_app in Hnd. simpl in Hnd.
    apply NoDup_remove_2 in Hnd. intros Hin. apply Hnd. apply in_or_app. now left.
Qed.

Lemma no_png_aborts_before_insertion_witness :
  traverse LIMIT demo_site
    [("Car A", Some "/wiki/A"); ("Car D", Some "/wiki/D"); ("Car B", Some "/wiki/B")] start
  = Aborted ValueError
      [("Car A", [("link", VStr "/wiki/A"); ("image", VStr ".../a.PNG");
                  ("CLASS", VStr "Sports "); ("PRICE", VInt 500000)])].
Proof.
  refine (proj1 (proj2 (no_png_aborts_before_insertion LIMIT demo_site
    [("Car A", Some "/wiki/A")] [("Car B", Some "/wiki/B")] "Car D" "/wiki/D" ".../d.jpg"
    (mkRun [("Car A", [("link", VStr "/wiki/A"); ("image", VStr ".../a.PNG");
                       ("CLASS", VStr "Sports "); ("PRICE", VInt 500000)])]
           (Some (VStr class_text)) 1)
    (plain_page ".../d.jpg" "$1")
    (hero_of [anchor "" ".../d.jpg"] [text_node "x"; class_div class_text] [text_node "$1"])
    (anchor "" ".../d.jpg")
    _ eq_refl eq_refl eq_refl eq_refl eq_refl _))).
  - vm_compute. distinct_strings.
  - apply contains_false. reflexivity.
Defined.

(** C6 (as the code has it).  [value] is a module-level name.  On the first
    item of the run it is still unbound, so a hero without a [div] whose
    [data-source] is "class" makes the class extraction raise [NameError],
    and the run ends with an empty catalog. *)
Theorem class_missing_on_first_item_raises_NameError (limit : nat) (web : Browser)
        (name url image : string) (rest : list (string * option string))
        (driver container element : WebElement) :
  web url = Ok driver ->
  find_element driver CLASS_NAME "nohero" = Ok container ->
  find_element container XPATH XPATH_IMAGE = Ok element ->
  image_of (get_attribute element "href") = Ok image ->
  (forall el, In el (find_elements container TAG_NAME "div") ->
              get_attribute el "data-source" <> Some "class") ->
  scan_class (find_elements container TAG_NAME "div") None = None /\
  set_hero driver url None = Raise NameError /\
  traverse limit web ((name, Some url) :: rest) start = Aborted NameError [].
Proof.
  intros Hweb Hc He Himg Hdivs.
  assert (Hscan : forall v, scan_class (find_elements container TAG_NAME "div") v = v).
  { intros v. induction (find_elements container TAG_NAME "div") as [|el divs IH];
      [reflexivity|].
    simpl. unfold has_attribute.
    destruct (get_attribute el "data-source") as [s|] eqn:Hs.
    - destruct (String.eqb_spec s "class") as [->|Hne].
      + elim (Hdivs el (or_introl eq_refl)). exact Hs.
      + apply IH. intros el' Hin. apply Hdivs. now right.
    - apply IH. intros el' Hin. apply Hdivs. now right. }
  assert (Hhero : set_hero driver url None = Raise NameError).
  { rewrite (set_hero_unfold _ _ _ _ _ Hc He), Himg, Hscan. reflexivity. }
  repeat split.
  - apply Hscan.
  - exact Hhero.
  - rewrite traverse_cons. simpl value.
    now rewrite (scrape_hero_raises web driver url None NameError Hweb Hhero).
Qed.

Lemma class_missing_on_first_item_raises_NameError_witness :
  traverse LIMIT demo_site [("Car C", Some "/wiki/C"); ("Car A", Some "/wiki/A")] start
  = Aborted NameError [].
Proof.
  refine (proj2 (proj2 (class_missing_on_first_item_raises_NameError LIMIT demo_site
    "Car C" "/wiki/C" ".../c.png" [("Car A", Some "/wiki/A")]
    (classless_page ".../c.png") (classless_hero ".../c.png") (anchor "" ".../c.png")
    eq_refl eq_refl eq_refl eq_refl _))).
  intros el [<-|[<-|[]]]; discriminate.
Defined.

(** C6, as stated, fails twice.  The exception of the first item is
    [NameError], not [UnboundLocalError]; and on a later item nothing is
    raised at all: [value] still holds the text the previous item left in
    it, and the item is catalogued with the previous item's class. *)
Lemma class_missing_counterexample :
  (forall el, In el (find_elements (classless_hero ".../c.png") TAG_NAME "div") ->
              get_attribute el "data-source" <> Some "class") /\
  set_hero (classless_page ".../c.png") "/wiki/C" None <> Raise UnboundLocalError /\
  exists record,
    catalog (traverse LIMIT demo_site
               [("Car A", Some "/wiki/A"); ("Car C", Some "/wiki/C")] start)
    = [("Car A", [("link", VStr "/wiki/A"); ("image", VStr ".../a.PNG");
                  ("CLASS", VStr "Sports "); ("PRICE", VInt 500000)]);
       ("Car C", record)] /\
    dict_get "CLASS" record = Some (VStr "Sports ").
Proof.
  split; [|split].
  - intros el [<-|[<-|[]]]; discriminate.
  - vm_compute. discriminate.
  - eexists. split; vm_compute; reflexivity.
Qed.

(* ================================================================== *)
(** * The record of a page *)

Lemma for_each_rel {A S : Type} (R : S -> S -> Prop) (body : S -> A -> Result S)
      (xs : list A) :
  (forall s, R s s) ->
  (forall a b c, R a b -> R b c -> R a c) ->
  (forall s x s1, In x xs -> body s x = Ok s1 -> R s s1) ->
  forall s s1, for_each body xs s = Ok s1 -> R s s1.
Proof.
  intros Hrefl Htrans. induction xs as [|x xs IH]; intros Hbody s s1; simpl.
  - intros [= <-]. apply Hrefl.
  - destruct (body s x) as [s2|e] eqn:Hx; simpl; [|discriminate].
    intros Hrest. apply Htrans with s2.
    + apply (Hbody s x); [now left | exact Hx].
    + apply IH; [|exact Hrest]. intros s0 y s3 Hy. apply Hbody. now right.
Qed.

Lemma grows_refl (L : list string) (r : PyRecord) : grows L r r.
Proof. split; [exists []; now rewrite app_nil_r | split; [reflexivity | tauto]]. Qed.

Lemma grows_trans (L : list string) (a b c : PyRecord) :
  grows L a b -> grows L b c -> grows L a c.
Proof.
  intros ([e1 H1] & G1 & W1) ([e2 H2] & G2 & W2). split; [|split].
  - exists (e1 ++ e2). now rewrite H2, H1, app_assoc.
  - intros k Hk. now rewrite G2, G1.
  - tauto.
Qed.

Lemma grows_set (L : list string) (k : string) (v : pyval) (r : PyRecord) :
  In k L -> grows L r (dict_set k v r).
Proof.
  intros Hk. split; [|split].
  - destruct (keys_set_cases k v r) as [-> | ->];
      [exists []; now rewrite app_nil_r | now exists [k]].
  - intros k' Hk'. apply dict_get_set_other. intros ->. contradiction.
  - apply dict_set_wf.
Qed.

Lemma grows_incl (L L' : list string) (r r' : PyRecord) :
  incl L L' -> grows L r r' -> grows L' r r'.
Proof.
  intros Hincl (He & Hg & Hw). split; [exact He|]. split; [|exact Hw].
  intros k Hk. apply Hg. intros Hin. apply Hk. now apply Hincl.
Qed.

Lemma set_price_grows (container : WebElement) (r r' : PyRecord) :
  set_price container r = Ok r' -> grows ["PRICE"] r r'.
Proof.
  unfold set_price.
  destruct (find_elements container XPATH XPATH_PRICE) as [|element more].
  - intros [= <-]. apply grows_refl.
  - destruct (Py.contains "$" (innerText element)).
    + succeeded (Py.index "$" (Py.replace "(" " " (Py.replace Py.newline " "
                   (Py.replace "," "" (innerText element))))) idx.
      succeeded (Py.item (Py.split " " (Py.slice_from idx (Py.replace "(" " "
                   (Py.replace Py.newline " " (Py.replace "," "" (innerText element)))))) 0)
                token.
      succeeded (Py.int (Py.replace "$" "" token)) n.
      intros [= <-]. apply grows_set. now left.
    + intros [= <-]. apply grows_refl.
Qed.

Lemma label_at_in (driver container : WebElement) (more : list WebElement)
      (class : string) (n idx : nat) (title : WebElement) :
  find_elements driver CLASS_NAME class = container :: more ->
  In idx (seq 0 n) ->
  find_element container CLASS_NAME
    (Py.replace "container" ("name" ++ Py.str (idx + 1)) class) = Ok title ->
  In (innerText title) (labels_in driver class n).
Proof.
  intros Hc Hidx Ht. unfold labels_in. rewrite Hc.
  apply in_flat_map. exists idx. split; [exact Hidx|].
  unfold label_at. rewrite Ht. now left.
Qed.

Lemma set_stats_grows (driver : WebElement) (r r' : PyRecord) :
  set_stats driver r = Ok r' -> grows (labels_in driver CLASS_STATS 4) r r'.
Proof.
  unfold set_stats.
  destruct (find_elements driver CLASS_NAME CLASS_STATS) as [|container more] eqn:Hc.
  - intros [= <-]. apply grows_refl.
  - apply for_each_rel; [apply grows_refl | apply grows_trans |].
    intros s idx s1 Hidx.
    pose proof (label_at_in driver container more CLASS_STATS 4 idx) as Hlabel.
    unfold stat_step.
    remember (Py.replace "container" ("name" ++ Py.str (idx + 1)) CLASS_STATS) as cn.
    remember (Py.replace "container" ("data" ++ Py.str (idx + 1)) CLASS_STATS) as cd.
    destruct (find_element container CLASS_NAME cn) as [title|e]; cbn [bind];
      [|discriminate].
    destruct (find_element container CLASS_NAME cd) as [stats|e]; cbn [bind];
      [|discriminate].
    destruct (find_elements stats XPATH "div[1]/div[1]") as [|element els].
    + intros [= <-]. apply grows_refl.
    + intros [= <-]. apply grows_set. now apply Hlabel.
Qed.

Lemma set_info_grows (driver : WebElement) (st st' : PyRecord * option pyval) :
  set_info driver st = Ok st' ->
  grows (labels_in driver CLASS_INFOS 7) (fst st) (fst st').
Proof.
  unfold set_info.
  destruct (find_elements driver CLASS_NAME CLASS_INFOS) as [|container more] eqn:Hc.
  - intros [= <-]. apply grows_refl.
  - apply (for_each_rel
             (fun a b => grows (labels_in driver CLASS_INFOS 7) (fst a) (fst b))).
    + intros s. apply grows_refl.
    + intros a b c. apply grows_trans.
    + intros s idx s1 Hidx.
      pose proof (label_at_in driver container more CLASS_INFOS 7 idx) as Hlabel.
      unfold info_step.
      remember (Py.replace "container" ("name" ++ Py.str (idx + 1)) CLASS_INFOS) as cn.
      remember (Py.replace "container" ("data" ++ Py.str (idx + 1)) CLASS_INFOS) as cd.
      destruct (find_element container CLASS_NAME cn) as [title|e]; cbn [bind];
        [|discriminate].
      destruct (find_element container CLASS_NAME cd) as [element|e]; cbn [bind];
        [|discriminate].
      destruct (info_value element) as [v|e]; cbn [bind]; [|discriminate].
      intros [= <-]. cbn [fst]. apply grows_set. now apply Hlabel.
Qed.


(** What a successful pass over one page has found and built. *)
Lemma scrape_ok (web : Browser) (url : string) (value value' : option pyval)
      (r : PyRecord) :
  scrape web (Some url) value = Ok (r, value') ->
  exists driver container element href image class,
    web url = Ok driver /\
    find_element driver CLASS_NAME "nohero" = Ok container /\
    find_element container XPATH XPATH_IMAGE = Ok element /\
    get_attribute element "href" = Some href /\
    image_of (Some href) = Ok image /\
    grows ("PRICE" :: labels driver)
          [("link", VStr url); ("image", VStr image); ("CLASS", VStr class)] r.
Proof.
  unfold scrape.
  destruct (web url) as [driver|e] eqn:Hweb; cbn [bind]; [|discriminate].
  destruct (find_element driver CLASS_NAME "nohero") as [container|e] eqn:Hc.
  2:{ unfold set_hero. rewrite Hc. discriminate. }
  destruct (find_element container XPATH XPATH_IMAGE) as [element|e] eqn:He.
  2:{ unfold set_hero. rewrite Hc. cbn [bind]. rewrite He. discriminate. }
  rewrite (set_hero_unfold _ _ _ _ _ Hc He).
  destruct (get_attribute element "href") as [href|] eqn:Hhref; [|discriminate].
  destruct (image_of (Some href)) as [image|e] eqn:Himg; cbn [bind]; [|discriminate].
  destruct (class_of _) as [class|e]; cbn [bind]; [|discriminate].
  destruct (set_price container _) as [r1|e] eqn:Hprice; cbn [bind]; [|discriminate].
  destruct (set_stats driver r1) as [r2|e] eqn:Hstats; cbn [bind]; [|discriminate].
  intros Hinfo.
  exists driver, container, element, href, image, class.
  repeat (split; [assumption || reflexivity|]).
  apply set_price_grows in Hprice. apply set_stats_grows in Hstats.
  apply set_info_grows in Hinfo. cbn [fst] in Hinfo.
  apply grows_trans with r1.
  { eapply grows_incl; [|exact Hprice]. intros k [<-|[]]. now left. }
  apply grows_trans with r2.
  { eapply grows_incl; [|exact Hstats]. intros k Hk. right.
    unfold labels. apply in_or_app. now left. }
  eapply grows_incl; [|exact Hinfo]. intros k Hk. right.
  unfold labels. apply in_or_app. now right.
Qed.

Lemma in_dict_set {V : Type} (k k' : string) (v v' : V) (d : dict V) :
  In (k', v') (dict_set k v d) -> (k', v') = (k, v) \/ In (k', v') d.
Proof.
  induction d as [|[k0 v0] d IH]; simpl.
  - intros [H|[]]. left. now symmetry.
  - destruct (String.eqb_spec k0 k) as [->|Hne]; simpl.
    + intros [H|H]; [left; now symmetry | right; now right].
    + intros [H|H]; [right; now left|].
      destruct (IH H) as [Heq|Hin]; [now left | right; now right].
Qed.

(** Every record in the catalog is the result of a successful pass over
    the page of one of the links. *)
Lemma catalog_entry_scraped (limit : nat) (web : Browser)
      (items : list (string * option string)) :
  forall st name r,
    In (name, r) (catalog (traverse limit web items st)) ->
    In (name, r) (data st) \/
    exists url v v',
      In (name, Some url) items /\ scrape web (Some url) v = Ok (r, v').
Proof.
  induction items as [|[n u] items IH]; intros st name r.
  - simpl. now left.
  - rewrite traverse_cons.
    destruct (scrape web u (value st)) as [[record v1]|e] eqn:Hs.
    + cbv zeta.
      assert (Hnew : In (name, r) (dict_set n record (data st)) ->
                     In (name, r) (data st) \/
                     exists url v v',
                       In (name, Some url) ((n, u) :: items) /\
                       scrape web (Some url) v = Ok (r, v')).
      { intros Hin. apply in_dict_set in Hin. destruct Hin as [[= -> ->]|Hin];
          [|now left].
        right. destruct u as [url|]; [|discriminate].
        exists url, (value st), v1. split; [now left | exact Hs]. }
      destruct (Nat.ltb limit (cnt st + 1)).
      * exact Hnew.
      * intros Hin. apply IH in Hin. cbn [data] in Hin.
        destruct Hin as [Hin|(url & v & v' & Hin & Hscr)]; [now apply Hnew|].
        right. exists url, v, v'. split; [now right | exact Hscr].
    + simpl. now left.
Qed.

(** The records of the catalog are dictionaries: no field twice. *)
Lemma catalog_records_wf (limit : nat) (web : Browser)
      (items : list (string * option string)) (name : string) (r : PyRecord) :
  In (name, r) (catalog (traverse limit web items start)) -> dict_wf r.
Proof.
  intros Hin. apply catalog_entry_scraped in Hin.
  destruct Hin as [[]|(url & v & v' & _ & Hscr)].
  apply scrape_ok in Hscr.
  destruct Hscr as (driver & container & element & href & image & class &
                    _ & _ & _ & _ & _ & _ & _ & Hwf).
  apply Hwf. unfold dict_wf. simpl.
  distinct_strings.
Qed.


(* ================================================================== *)
(** * Set stats *)

Lemma append_empty_r (s : string) : (s ++ "")%string = s.
Proof. induction s as [|c s IH]; simpl; [reflexivity | now rewrite IH]. Qed.

(** The class names the loops look for. *)
Lemma indexed_class_stats (kind : string) :
  Py.replace "container" kind CLASS_STATS = ("rssc-stats-" ++ kind)%string.
Proof. unfold Py.replace, CLASS_STATS. simpl. now rewrite append_empty_r. Qed.

Lemma indexed_class_infos (kind : string) :
  Py.replace "container" kind CLASS_INFOS = ("rssc-info-" ++ kind)%string.
Proof. unfold Py.replace, CLASS_INFOS. simpl. now rewrite append_empty_r. Qed.

Lemma for_each_total {A S : Type} (body : S -> A -> Result S) (f : S -> A -> S)
      (xs : list A) :
  (forall s x, In x xs -> body s x = Ok (f s x)) ->
  forall s, for_each body xs s = Ok (fold_left f xs s).
Proof.
  induction xs as [|x xs IH]; intros Hbody s; simpl; [reflexivity|].
  rewrite Hbody by now left. cbn [bind]. apply IH.
  intros s' y Hy. apply Hbody. now right.
Qed.

(** Fields with distinct labels do not disturb one another. *)
Lemma stat_fields_get (title stats : nat -> WebElement) (idxs : list nat) :
  forall record,
    NoDup (map (fun i => innerText (title i)) idxs) ->
    (forall idx, In idx idxs ->
       dict_get (innerText (title idx)) (fold_left (stat_field title stats) idxs record) =
       match find_elements (stats idx) XPATH "div[1]/div[1]" with
       | [] => dict_get (innerText (title idx)) record
       | element :: _ => Some (VInt (size_width element))
       end) /\
    (forall k, ~ In k (map (fun i => innerText (title i)) idxs) ->
       dict_get k (fold_left (stat_field title stats) idxs record) = dict_get k record).
Proof.
  induction idxs as [|i idxs IH]; intros record Hnd.
  - split; [intros idx []|reflexivity].
  - apply NoDup_cons_iff in Hnd. destruct Hnd as [Hnotin Hnd].
    destruct (IH (stat_field title stats record i) Hnd) as [IHin IHout].
    assert (Hother : forall k, k <> innerText (title i) ->
              dict_get k (stat_field title stats record i) = dict_get k record).
    { intros k Hk. unfold stat_field.
      destruct (find_elements (stats i) XPATH "div[1]/div[1]"); [reflexivity|].
      apply dict_get_set_other. congruence. }
    split.
    + intros idx [<-|Hin]; simpl fold_left.
      * rewrite IHout by assumption. unfold stat_field.
        destruct (find_elements (stats i) XPATH "div[1]/div[1]"); [reflexivity|].
        apply dict_get_set_same.
      * rewrite IHin by assumption.
        destruct (find_elements (stats idx) XPATH "div[1]/div[1]"); [|reflexivity].
        apply Hother. intros Heq. apply Hnotin. rewrite <- Heq.
        now apply (in_map (fun i => innerText (title i))).
    + intros k Hk. simpl in Hk. simpl fold_left. rewrite IHout by tauto.
      apply Hother. intros ->. tauto.
Qed.

(** C8.  Without a stats container the record is left as it is.  With
    one whose four labels and four bars are found, each index in turn adds
    its field when the bar has a filled part and changes nothing when it
    has none; after an index without filled part the loop goes on with the
    remaining indices from the same record.  With distinct
    labels, the record in the end holds the width for every index with a
    filled part and keeps what it had under the label of every index
    without. *)
Theorem stats_skip_only_bars_without_fill :
  (forall driver record,
      find_elements driver CLASS_NAME CLASS_STATS = [] ->
      set_stats driver record = Ok record) /\
  (forall driver container more record (title stats : nat -> WebElement),
      find_elements driver CLASS_NAME CLASS_STATS = container :: more ->
      (forall idx, idx < 4 ->
         find_element container CLASS_NAME ("rssc-stats-name" ++ Py.str (idx + 1))
         = Ok (title idx)) ->
      (forall idx, idx < 4 ->
         find_element container CLASS_NAME ("rssc-stats-data" ++ Py.str (idx + 1))
         = Ok (stats idx)) ->
      exists record',
        set_stats driver record = Ok record' /\
        record' = fold_left (stat_field title stats) (seq 0 4) record /\
        (NoDup (map (fun i => innerText (title i)) (seq 0 4)) ->
         forall idx, idx < 4 ->
           dict_get (innerText (title idx)) record' =
           match find_elements (stats idx) XPATH "div[1]/div[1]" with
           | [] => dict_get (innerText (title idx)) record
           | element :: _ => Some (VInt (size_width element))
           end)) /\
  (forall container record idx rest title stats,
      find_element container CLASS_NAME ("rssc-stats-name" ++ Py.str (idx + 1)) = Ok title ->
      find_element container CLASS_NAME ("rssc-stats-data" ++ Py.str (idx + 1)) = Ok stats ->
      find_elements stats XPATH "div[1]/div[1]" = [] ->
      for_each (stat_step container) (idx :: rest) record
      = for_each (stat_step container) rest record).
Proof.
  split; [|split].
  - intros driver record Hnone. unfold set_stats. now rewrite Hnone.
  - intros driver container more record title stats Hc Htitle Hstats.
    eexists. split; [|split; [reflexivity|]].
    + unfold set_stats. rewrite Hc. apply for_each_total.
      intros s idx Hidx. apply in_seq in Hidx.
      unfold stat_step. rewrite !indexed_class_stats.
      change ("rssc-stats-" ++ "name" ++ Py.str (idx + 1))%string
        with ("rssc-stats-name" ++ Py.str (idx + 1))%string.
      change ("rssc-stats-" ++ "data" ++ Py.str (idx + 1))%string
        with ("rssc-stats-data" ++ Py.str (idx + 1))%string.
      rewrite Htitle by lia. cbn [bind]. rewrite Hstats by lia. cbn [bind].
      unfold stat_field. now destruct (find_elements (stats idx) XPATH "div[1]/div[1]").
    + intros Hnd idx Hidx.
      apply (stat_fields_get title stats (seq 0 4) record Hnd).
      apply in_seq. lia.
  - intros container record idx rest title stats Htitle Hstats Hnone.
    cbn [for_each]. unfold stat_step at 1. rewrite !indexed_class_stats.
    change ("rssc-stats-" ++ "name" ++ Py.str (idx + 1))%string
      with ("rssc-stats-name" ++ Py.str (idx + 1))%string.
    change ("rssc-stats-" ++ "data" ++ Py.str (idx + 1))%string
      with ("rssc-stats-data" ++ Py.str (idx + 1))%string.
    rewrite Htitle. cbn [bind]. rewrite Hstats. cbn [bind]. now rewrite Hnone.
Qed.

Lemma stats_skip_only_bars_without_fill_witness :
  set_stats stats_page [("link", VStr "/wiki/S")]
  = Ok [("link", VStr "/wiki/S"); ("Speed", VInt 80); ("Braking", VInt 33);
        ("Traction", VInt 70)].
Proof.
  destruct (proj1 (proj2 stats_skip_only_bars_without_fill) stats_page four_stats []
              [("link", VStr "/wiki/S")] four_titles four_bars eq_refl)
    as (record' & Hrun & Hrecord & _).
  - intros [|[|[|[|idx]]]] Hidx; try reflexivity; lia.
  - intros [|[|[|[|idx]]]] Hidx; try reflexivity; lia.
  - rewrite Hrun, Hrecord. reflexivity.
Defined.

(* ================================================================== *)
(** * Set price *)

Lemma set_hero_ok (driver container : WebElement) (url : string)
      (value value' : option pyval) (record : PyRecord) :
  set_hero driver url value = Ok (container, record, value') ->
  exists image class,
    record = [("link", VStr url); ("image", VStr image); ("CLASS", VStr class)].
Proof.
  unfold set_hero.
  succeeded (find_element driver CLASS_NAME "nohero") c.
  succeeded (find_element c XPATH XPATH_IMAGE) el.
  succeeded (image_of (get_attribute el "href")) image.
  succeeded (class_of (scan_class (find_elements c TAG_NAME "div") value)) class.
  intros [= _ <- _]. now exists image, class.
Qed.

Example price_with_newline :
  set_price (price_hero ("Price" ++ Py.newline ++ "$2,500(Warstock)")) []
  = Ok [("PRICE", VInt 2500)].
Proof. reflexivity. Qed.

(* ================================================================== *)
(** * Set info *)

Lemma contains_true (sub s : string) :
  Py.contains sub s = true <-> exists j, occurs_at sub s j.
Proof.
  split.
  - unfold Py.contains. destruct (Py.find sub s) as [i|] eqn:F; [|discriminate].
    intros _. exists i. now apply find_some.
  - intros [j Hj]. destruct (Py.contains sub s) eqn:C; [reflexivity|].
    rewrite contains_false in C. elim (C j Hj).
Qed.

Lemma decimal_char_facts (c : ascii) :
  Py.is_decimal_char c = true ->
  Py.is_numeric_char c = true /\ Py.is_space c = false /\
  Ascii.eqb c "-" = false /\ Ascii.eqb c "+" = false /\ Ascii.eqb c "_" = false /\
  Py.digit_of c = Some (Z.of_nat (nat_of_ascii c - 48)).
Proof.
  intros H. unfold Py.digit_of. rewrite H.
  destruct c as [b0 b1 b2 b3 b4 b5 b6 b7].
  destruct b0, b1, b2, b3, b4, b5, b6, b7; try discriminate H; repeat split.
Qed.

Lemma decimal_isnumeric (s : string) :
  s <> "" -> Py.all_chars Py.is_decimal_char s = true -> Py.isnumeric s = true.
Proof.
  intros Hne Hall. destruct s as [|c s]; [congruence|]. unfold Py.isnumeric.
  clear Hne. revert Hall. generalize (String c s). intros t.
  induction t as [|d t IH]; simpl; [reflexivity|].
  intros H. apply andb_true_iff in H. destruct H as [Hd Ht].
  apply decimal_char_facts in Hd. destruct Hd as [-> _]. now apply IH.
Qed.

Lemma decimal_lstrip (s : string) :
  Py.all_chars Py.is_decimal_char s = true -> Py.lstrip s = s.
Proof.
  destruct s as [|c s]; simpl; [reflexivity|].
  intros H. apply andb_true_iff in H. destruct H as [Hc _].
  apply decimal_char_facts in Hc. destruct Hc as (_ & -> & _). reflexivity.
Qed.

Lemma decimal_rstrip (s : string) :
  Py.all_chars Py.is_decimal_char s = true -> Py.rstrip s = s.
Proof.
  induction s as [|c s IH]; simpl; [reflexivity|].
  intros H. apply andb_true_iff in H. destruct H as [Hc Hs].
  rewrite (IH Hs). apply decimal_char_facts in Hc. destruct Hc as (_ & -> & _).
  now destruct s.
Qed.

Lemma decimal_digits (s : string) : forall acc cnt after_digit,
  Py.all_chars Py.is_decimal_char s = true ->
  Py.digits s acc cnt after_digit =
  match s with
  | EmptyString => if after_digit then Some (acc, cnt) else None
  | _ => Some (decimal_value s acc, cnt + String.length s)
  end.
Proof.
  induction s as [|c s IH]; intros acc cnt b; [reflexivity|].
  simpl. intros H. apply andb_true_iff in H. destruct H as [Hc Hs].
  apply decimal_char_facts in Hc. destruct Hc as (_ & _ & _ & _ & -> & ->).
  rewrite (IH _ _ _ Hs). destruct s as [|d s].
  - simpl. do 2 f_equal. lia.
  - do 2 f_equal. simpl. lia.
Qed.

(** [int] on a text of decimal digits. *)
Lemma int_of_decimal (s : string) :
  s <> "" ->
  Py.all_chars Py.is_decimal_char s = true ->
  String.length s <= Py.int_max_str_digits ->
  Py.int s = Ok (decimal_value s 0).
Proof.
  intros Hne Hall Hlen. unfold Py.int.
  rewrite (decimal_lstrip s Hall), (decimal_rstrip s Hall).
  destruct s as [|c s]; [congruence|].
  pose proof Hall as Hc. simpl in Hc. apply andb_true_iff in Hc. destruct Hc as [Hc _].
  apply decimal_char_facts in Hc. destruct Hc as (_ & _ & -> & -> & _).
  rewrite (decimal_digits _ _ _ _ Hall).
  destruct (Nat.ltb_spec Py.int_max_str_digits (0 + String.length (String c s)));
    [lia | reflexivity].
Qed.

(** C2 (as the code has it).  An info value without text is read off its
    icon: true exactly when the image name contains "Check".  A text of
    decimal digits becomes the integer it denotes, and a text that
    [isnumeric] rejects is kept as it is. *)
Theorem info_value_by_content (element : WebElement) :
  (forall image more name,
      innerText element = "" ->
      find_elements element XPATH "img[1]" = image :: more ->
      get_attribute image "data-image-name" = Some name ->
      info_value element = Ok (VBool (Py.contains "Check" name)) /\
      (Py.contains "Check" name = true <-> exists j, occurs_at "Check" name j)) /\
  (innerText element <> "" ->
   Py.all_chars Py.is_decimal_char (innerText element) = true ->
   String.length (innerText element) <= Py.int_max_str_digits ->
   info_value element = Ok (VInt (decimal_value (innerText element) 0))) /\
  (innerText element <> "" ->
   Py.isnumeric (innerText element) = false ->
   info_value element = Ok (VStr (innerText element))).
Proof.
  split; [|split].
  - intros image more name Htext Himg Hname. split; [|apply contains_true].
    unfold info_value, find_element. rewrite Htext, Himg. cbn [String.eqb bind].
    now rewrite Hname.
  - intros Hne Hall Hlen. unfold info_value.
    destruct (String.eqb_spec (innerText element) ""); [contradiction|].
    rewrite (decimal_isnumeric _ Hne Hall), (int_of_decimal _ Hne Hall Hlen).
    reflexivity.
  - intros Hne Hnum. unfold info_value.
    destruct (String.eqb_spec (innerText element) ""); [contradiction|].
    now rewrite Hnum.
Qed.

Lemma info_value_by_content_witness :
  info_value (icon "Check-Yes") = Ok (VBool true) /\
  info_value (icon "Cross-No") = Ok (VBool false) /\
  info_value (text_node "42") = Ok (VInt 42) /\
  info_value (text_node "Rear-wheel drive") = Ok (VStr "Rear-wheel drive").
Proof.
  split; [|split; [|split]].
  - exact (proj1 (proj1 (info_value_by_content (icon "Check-Yes"))
                    (node "" [("data-image-name", "Check-Yes")] 0%Z []) [] "Check-Yes"
                    eq_refl eq_refl eq_refl)).
  - exact (proj1 (proj1 (info_value_by_content (icon "Cross-No"))
                    (node "" [("data-image-name", "Cross-No")] 0%Z []) [] "Cross-No"
                    eq_refl eq_refl eq_refl)).
  - apply (proj1 (proj2 (info_value_by_content (text_node "42")))).
    + discriminate.
    + reflexivity.
    + unfold Py.int_max_str_digits. simpl. lia.
  - apply (proj2 (proj2 (info_value_by_content (text_node "Rear-wheel drive")))).
    + discriminate.
    + reflexivity.
Defined.

(** C2, as stated, fails on its own example: "Check-No" contains "Check",
    so the value is true. *)
Lemma check_no_counterexample :
  innerText (icon "Check-No") = "" /\
  (exists image,
      find_element (icon "Check-No") XPATH "img[1]" = Ok image /\
      get_attribute image "data-image-name" = Some "Check-No") /\
  info_value (icon "Check-No") = Ok (VBool true) /\
  info_value (icon "Check-No") <> Ok (VBool false).
Proof.
  split; [reflexivity|]. split; [eexists; split; reflexivity|].
  split; [reflexivity | discriminate].
Qed.

(** A text can be numeric for [isnumeric] and still no integer for [int]. *)
Example superscript_two_is_no_int :
  info_value (text_node (String (ascii_of_nat 178) "")) = Raise ValueError.
Proof. reflexivity. Qed.

(* ================================================================== *)
(** * Create tabular data *)

Section Store.

Implicit Types (h : Store) (a : ref) (r : PyRecord).

Lemma length_store_at h : forall a r, List.length (store_at h a r) = List.length h.
Proof.
  induction h as [|x h IH]; intros [|a] r; simpl; try reflexivity.
  now rewrite IH.
Qed.

Lemma load_store_at_same h : forall a r,
  a < List.length h -> load (store_at h a r) a = Some r.
Proof.
  unfold load. induction h as [|x h IH]; intros [|a] r; simpl; try lia.
  - reflexivity.
  - intros H. apply IH. lia.
Qed.

Lemma load_store_at_other h : forall a a' r,
  a <> a' -> load (store_at h a r) a' = load h a'.
Proof.
  unfold load. induction h as [|x h IH]; intros [|a] [|a'] r Hne; simpl;
    try reflexivity; try congruence.
  apply IH. congruence.
Qed.

Lemma load_valid h a r : load h a = Some r -> a < List.length h.
Proof. unfold load. intros H. apply nth_error_Some. congruence. Qed.

Lemma setitem_spec h a k v r :
  load h a = Some r ->
  List.length (setitem h a k v) = List.length h /\
  load (setitem h a k v) a = Some (dict_set k v r) /\
  (forall a', a' <> a -> load (setitem h a k v) a' = load h a').
Proof.
  intros Hload. unfold setitem. rewrite Hload. split; [|split].
  - apply length_store_at.
  - apply load_store_at_same. now apply load_valid in Hload.
  - intros a' Hne. apply load_store_at_other. congruence.
Qed.

(** Assigning the items one by one changes the target object only. *)
Lemma setitems_spec (kvs : list (string * pyval)) a : forall h r,
  load h a = Some r ->
  let h' := fold_left (fun h kv => setitem h a (fst kv) (snd kv)) kvs h in
  List.length h' = List.length h /\
  load h' a = Some (assign_all kvs r) /\
  (forall a', a' <> a -> load h' a' = load h a').
Proof.
  induction kvs as [|[k v] kvs IH]; intros h r Hload; simpl.
  - repeat split. exact Hload.
  - destruct (setitem_spec h a k v r Hload) as (Hlen & Hsame & Hother).
    destruct (IH _ _ Hsame) as (Hlen' & Hsame' & Hother').
    split; [congruence|]. split; [exact Hsame'|].
    intros a' Hne. rewrite Hother' by assumption. now apply Hother.
Qed.

Lemma load_alloc_old h r a : a < List.length h -> load (h ++ [r]) a = load h a.
Proof. intros H. unfold load. now apply nth_error_app1. Qed.

Lemma load_alloc_new h r : load (h ++ [r]) (List.length h) = Some r.
Proof. unfold load. rewrite nth_error_app2 by lia. now rewrite Nat.sub_diag. Qed.

(** One turn of the loop: a new object holds the flat record, every
    object that was there is as it was. *)
Lemma table_row_spec (table : list ref) h (vehicle : string) (values : ref) :
  values < List.length h ->
  exists h',
    table_row (table, h) (vehicle, values) = (table ++ [List.length h], h') /\
    List.length h' = S (List.length h) /\
    (forall a, a < List.length h -> load h' a = load h a) /\
    load h' (List.length h) = Some (flat_record vehicle (items_of h values)).
Proof.
  intros Hvalid. unfold table_row, alloc. cbv beta iota zeta.
  match goal with |- context [items_of ?x values] => set (h1 := x) end.
  assert (Hitems : items_of h1 values = items_of h values).
  { unfold items_of, h1. now rewrite load_alloc_old. }
  rewrite Hitems.
  destruct (setitems_spec (items_of h values) (List.length h) h1
              [("Vehicle", VStr vehicle)] (load_alloc_new _ _))
    as (Hlen & Hsame & Hother).
  eexists. split; [reflexivity|]. split; [|split].
  - rewrite Hlen. unfold h1. rewrite length_app. simpl. lia.
  - intros a Ha. rewrite Hother by lia. unfold h1. now apply load_alloc_old.
  - exact Hsame.
Qed.

Lemma table_loop_spec (data : dict ref) : forall (table : list ref) h,
  (forall name a, In (name, a) data -> a < List.length h) ->
  exists h',
    fold_left table_row data (table, h)
      = (table ++ seq (List.length h) (List.length data), h') /\
    List.length h' = List.length h + List.length data /\
    (forall a, a < List.length h -> load h' a = load h a) /\
    (forall i vehicle a,
        nth_error data i = Some (vehicle, a) ->
        load h' (List.length h + i) = Some (flat_record vehicle (items_of h a))).
Proof.
  induction data as [|[vehicle values] data IH]; intros table h Hvalid.
  - exists h. simpl. rewrite app_nil_r. repeat split; try lia.
    intros [|i] v a; discriminate.
  - destruct (table_row_spec table h vehicle values) as (h1 & Hrow & Hlen1 & Hold1 & Hnew1).
    { apply (Hvalid vehicle). now left. }
    destruct (IH (table ++ [List.length h]) h1) as (h' & Hloop & Hlen & Hold & Hnew).
    { intros name a Hin. rewrite Hlen1. apply Nat.lt_lt_succ_r.
      apply (Hvalid name). now right. }
    exists h'. cbn [fold_left]. rewrite Hrow, Hloop. split; [|split; [|split]].
    + rewrite <- app_assoc, Hlen1. reflexivity.
    + rewrite Hlen, Hlen1. simpl. lia.
    + intros a Ha. rewrite Hold by lia. now apply Hold1.
    + intros [|i] v a; simpl.
      * intros [= <- <-]. rewrite Nat.add_0_r, Hold by lia. exact Hnew1.
      * intros Hi. replace (List.length h + S i) with (List.length h1 + i) by lia.
        rewrite (Hnew i v a Hi). do 2 f_equal. unfold items_of.
        rewrite Hold1; [reflexivity|].
        apply (Hvalid v). right. now apply nth_error_In in Hi.
Qed.

End Store.

(** A record without a field of that name gets [Vehicle] in front and is
    otherwise copied as it is. *)
Lemma flat_record_fresh (vehicle : string) (r : PyRecord) :
  dict_wf r -> dict_get "Vehicle" r = None ->
  flat_record vehicle r = ("Vehicle", VStr vehicle) :: r.
Proof.
  intros Hwf Hnone. unfold flat_record.
  change (assign_all r [("Vehicle", VStr vehicle)] = [("Vehicle", VStr vehicle)] ++ r).
  apply assign_all_fresh. simpl. constructor; [|exact Hwf].
  now apply dict_get_none.
Qed.

Lemma tabulate_map (data : dict PyRecord) :
  tabulate data = map (fun entry => flat_record (fst entry) (snd entry)) data.
Proof.
  unfold tabulate.
  enough (H : forall table,
             fold_left (fun table entry => table ++ [flat_record (fst entry) (snd entry)])
                       data table
             = table ++ map (fun entry => flat_record (fst entry) (snd entry)) data)
    by apply (H []).
  induction data as [|e data IH]; intros table; simpl.
  - now rewrite app_nil_r.
  - now rewrite IH, <- app_assoc.
Qed.

(** Creating the catalog's records as objects, in order. *)
Lemma store_catalog_spec (data : dict PyRecord) : forall h,
  exists d,
    store_catalog data h = (d, h ++ map snd data) /\
    List.length d = List.length data /\
    (forall i vehicle r,
        nth_error data i = Some (vehicle, r) ->
        nth_error d i = Some (vehicle, List.length h + i)).
Proof.
  induction data as [|[name r] data IH]; intros h.
  - exists []. simpl. rewrite app_nil_r. repeat split.
    intros [|i] v r; discriminate.
  - destruct (IH (h ++ [r])) as (d & Hd & Hlen & Hnth).
    exists ((name, List.length h) :: d). simpl. unfold alloc. rewrite Hd.
    rewrite <- app_assoc. split; [reflexivity|]. split; [now rewrite Hlen|].
    intros [|i] v r0; simpl.
    + intros [= <- <-]. now rewrite Nat.add_0_r.
    + intros Hi. rewrite (Hnth i v r0 Hi), length_app. simpl. do 2 f_equal. lia.
Qed.

(** On the catalog of a run, the loop on the store builds the table
    [tabulate] computes, and leaves the records where they are. *)
Lemma table_loop_tabulate (data : dict PyRecord) :
  exists d h',
    store_catalog data [] = (d, map snd data) /\
    table_loop d (map snd data)
      = (seq (List.length data) (List.length data), h') /\
    map (load h') (seq 0 (List.length data)) = map (fun e => Some (snd e)) data /\
    map (load h') (seq (List.length data) (List.length data))
      = map Some (tabulate data).
Proof.
  destruct (store_catalog_spec data []) as (d & Hd & Hlen & Hnth). simpl in Hd, Hnth.
  assert (Hvalid : forall name a, In (name, a) d -> a < List.length (map snd data)).
  { intros name a Hin. apply In_nth_error in Hin. destruct Hin as [i Hi].
    rewrite length_map.
    destruct (nth_error data i) as [[v r]|] eqn:Hdata.
    - rewrite (Hnth i v r Hdata) in Hi. injection Hi as _ <-.
      apply nth_error_Some. congruence.
    - apply nth_error_None in Hdata.
      assert (i < List.length d) by (apply nth_error_Some; congruence). lia. }
  destruct (table_loop_spec d [] (map snd data) Hvalid) as (h' & Hloop & _ & Hold & Hnew).
  rewrite length_map, Hlen in Hloop. simpl in Hloop.
  exists d, h'. split; [exact Hd|]. split; [exact Hloop|]. split.
  - apply nth_error_ext. intros i.
    rewrite !nth_error_map, nth_error_seq.
    destruct (Nat.ltb_spec i (List.length data)) as [Hi|Hi]; simpl.
    + rewrite Hold by now rewrite length_map.
      unfold load. rewrite nth_error_map.
      destruct (nth_error data i) as [[v r]|] eqn:Hdata; [reflexivity|].
      apply nth_error_None in Hdata. lia.
    + apply nth_error_None in Hi. now rewrite Hi.
  - rewrite tabulate_map. apply nth_error_ext. intros i.
    rewrite !nth_error_map, nth_error_seq.
    destruct (Nat.ltb_spec i (List.length data)) as [Hi|Hi]; simpl.
    + destruct (nth_error data i) as [[v r]|] eqn:Hdata.
      * pose proof (Hnew i v i (Hnth i v r Hdata)) as Hflat.
        rewrite length_map in Hflat. simpl. rewrite Hflat. do 3 f_equal.
        unfold items_of, load. rewrite nth_error_map, Hdata. reflexivity.
      * apply nth_error_None in Hdata. lia.
    + apply nth_error_None in Hi. now rewrite Hi.
Qed.

(** C9 (as the code has it).  The loop creates one new dictionary per
    catalog entry, in order, and touches no dictionary that existed before:
    every catalog record is as it was, and assigning to a record of the
    view leaves the catalog records alone.  The new dictionary is what the
    assignments of the record's items make of [{"Vehicle": key}]; for a
    record without a field named [Vehicle] that is [Vehicle], set to the
    key, followed by the record's fields in their order. *)
Theorem table_is_fresh_and_frames_catalog (data : dict ref) (h : Store) :
  (forall name a, In (name, a) data -> a < List.length h) ->
  exists h',
    table_loop data h = (seq (List.length h) (List.length data), h') /\
    (forall a, a < List.length h -> load h' a = load h a) /\
    (forall i vehicle a r,
        nth_error data i = Some (vehicle, a) ->
        load h a = Some r ->
        load h' a = Some r /\
        load h' (List.length h + i) = Some (flat_record vehicle r) /\
        (dict_wf r -> dict_get "Vehicle" r = None ->
         load h' (List.length h + i) = Some (("Vehicle", VStr vehicle) :: r))) /\
    (forall t r' a,
        In t (seq (List.length h) (List.length data)) ->
        a < List.length h ->
        load (store_at h' t r') a = load h a).
Proof.
  intros Hvalid. unfold table_loop.
  destruct (table_loop_spec data [] h Hvalid) as (h' & Hloop & Hlen & Hold & Hnew).
  exists h'. split; [exact Hloop|]. split; [exact Hold|]. split.
  - intros i vehicle a r Hi Hload.
    assert (Hflat : load h' (List.length h + i) = Some (flat_record vehicle r)).
    { rewrite (Hnew i vehicle a Hi). unfold items_of. now rewrite Hload. }
    split; [|split].
    + rewrite Hold; [exact Hload | now apply load_valid in Hload].
    + exact Hflat.
    + intros Hwf Hnone. now rewrite Hflat, flat_record_fresh.
  - intros t r' a Ht Ha. apply in_seq in Ht.
    rewrite load_store_at_other by lia. now apply Hold.
Qed.

Lemma table_is_fresh_and_frames_catalog_witness :
  exists h',
    table_loop [("Car A", 0); ("Car B", 1)]
               [[("link", VStr "/wiki/A")]; [("link", VStr "/wiki/B"); ("PRICE", VInt 5)]]
    = ([2; 3], h') /\
    load h' 1 = Some [("link", VStr "/wiki/B"); ("PRICE", VInt 5)] /\
    load h' 3 = Some [("Vehicle", VStr "Car B"); ("link", VStr "/wiki/B"); ("PRICE", VInt 5)] /\
    load (store_at h' 3 []) 1 = Some [("link", VStr "/wiki/B"); ("PRICE", VInt 5)].
Proof.
  destruct (table_is_fresh_and_frames_catalog [("Car A", 0); ("Car B", 1)]
              [[("link", VStr "/wiki/A")]; [("link", VStr "/wiki/B"); ("PRICE", VInt 5)]])
    as (h' & Hloop & Hold & Hnew & Hframe).
  - intros name a [[= <- <-]|[[= <- <-]|[]]]; simpl; lia.
  - exists h'. split; [exact Hloop|].
    destruct (Hnew 1 "Car B" 1 [("link", VStr "/wiki/B"); ("PRICE", VInt 5)]
                eq_refl eq_refl) as (Hsame & _ & Hflat).
    split; [exact Hsame|]. split.
    + apply Hflat; [|reflexivity].
      unfold dict_wf. simpl. distinct_strings.
    + apply (Hframe 3 [] 1); simpl; [tauto | lia].
Defined.

(** C9, as stated, fails for a record that has a field named [Vehicle]
    itself (here from an info label of the page): the field overwrites the
    catalog key, and is no longer where the record had it. *)
Lemma vehicle_field_counterexample :
  exists r d h table h' flat,
    catalog (traverse LIMIT demo_site [("Car V", Some "/wiki/V")] start) = [("Car V", r)] /\
    store_catalog [("Car V", r)] [] = (d, h) /\
    table_loop d h = (table, h') /\
    option_map (load h') (hd_error table) = Some (Some flat) /\
    dict_get "Vehicle" flat = Some (VStr "Car") /\
    dict_get "Vehicle" flat <> Some (VStr "Car V") /\
    flat <> ("Vehicle", VStr "Car V") :: r /\
    tabulate [("Car V", r)] = [flat].
Proof.
  do 6 eexists.
  split; [vm_compute; reflexivity|].
  split; [vm_compute; reflexivity|].
  split; [vm_compute; reflexivity|].
  split; [vm_compute; reflexivity|].
  split; [vm_compute; reflexivity|].
  split; [discriminate|].
  split; [discriminate | vm_compute; reflexivity].
Qed.

(* ================================================================== *)
(** * Get vehicle links: names that occur more than once *)

Lemma assign_all_get {V : Type} (k : string) (kvs : list (string * V)) : forall d,
  dict_get k (assign_all kvs d) =
  match last_value k kvs with
  | Some v => Some v
  | None => dict_get k d
  end.
Proof.
  induction kvs as [|[k' v] kvs IH]; intros d; simpl; [reflexivity|].
  rewrite IH. destruct (last_value k kvs); [reflexivity|].
  destruct (String.eqb_spec k' k) as [->|Hne].
  - apply dict_get_set_same.
  - now apply dict_get_set_other.
Qed.

Lemma mem_In (k : string) (ks : list string) : mem k ks = true <-> In k ks.
Proof.
  unfold mem. rewrite existsb_exists. split.
  - intros (x & Hx & Heq). apply String.eqb_eq in Heq. now subst.
  - intros H. exists k. split; [exact H | apply String.eqb_refl].
Qed.

Lemma assign_all_keys {V : Type} (kvs : list (string * V)) : forall d,
  keys (assign_all kvs d) = keys d ++ firsts (keys d) (keys kvs).
Proof.
  induction kvs as [|[k v] kvs IH]; intros d; simpl.
  - now rewrite app_nil_r.
  - rewrite IH. destruct (mem k (keys d)) eqn:M.
    + apply mem_In in M. now rewrite keys_set_old.
    + assert (Hnew : ~ In k (keys d)) by (rewrite <- mem_In; congruence).
      rewrite dict_set_new by assumption.
      unfold keys. rewrite map_app. simpl. now rewrite <- app_assoc.
Qed.

(** X1.  The links are what the visits of the four nested loops assigned,
    in the order of the visits: looking a name up gives the URL assigned
    at the last visit that found this name, and the names come in the order
    of the visits that found them first.  (The visits follow the document
    only where no list lies in another list: see [nested_listing].) *)
Theorem links_last_url_first_place (vehicle_table : WebElement) :
  let found := entries (list_items vehicle_table) in
  (forall name,
      dict_get name (links (harvest_links vehicle_table)) = last_value name found) /\
  keys (links (harvest_links vehicle_table)) = firsts [] (keys found).
Proof.
  intros found. unfold harvest_links.
  rewrite harvest_from_items, harvest_items. fold found. cbn [links].
  split.
  - intros name. rewrite assign_all_get. now destruct (last_value name found).
  - now rewrite assign_all_keys.
Qed.

Example links_of_listing_twice :
  links (harvest_links listing_twice)
  = [("Car A", Some "/wiki/A2"); ("Car B", Some "/wiki/B")].
Proof. reflexivity. Qed.

Lemma entries_count (items : list WebElement) :
  List.length (without_anchor items) + List.length (entries items) = List.length items.
Proof.
  induction items as [|item items IH]; simpl; [reflexivity|].
  destruct (entry_of item); simpl; lia.
Qed.

Lemma dict_set_length {V : Type} (k : string) (v : V) (d : dict V) :
  List.length d <= List.length (dict_set k v d) <= List.length d + 1.
Proof.
  induction d as [|[k' v'] d IH]; simpl; [lia|].
  destruct (String.eqb k' k); simpl; lia.
Qed.

Lemma assign_all_length {V : Type} (kvs : list (string * V)) : forall d,
  List.length (assign_all kvs d) <= List.length d + List.length kvs.
Proof.
  induction kvs as [|[k v] kvs IH]; intros d; simpl; [lia|].
  specialize (IH (dict_set k v d)). pose proof (dict_set_length k v d). lia.
Qed.

(** X2.  Every visit of the four nested loops is accounted for: it
    printed a diagnostic or it assigned a link, never both and never
    neither; so the diagnostics and the assignments together are as many as
    the visits, and the links, one for each name assigned, never outnumber
    the assignments.  (An item of a list that lies in another list is
    visited, and counted, once for each of them: see [nested_listing].) *)
Theorem harvest_accounts_for_every_item (vehicle_table : WebElement) :
  let items := list_items vehicle_table in
  let h := harvest_links vehicle_table in
  List.length (printed h) + List.length (entries items) = List.length items /\
  List.length (links h) <= List.length (entries items) /\
  List.length (printed h) + List.length (links h) <= List.length items /\
  (forall item, In item items ->
     (find_elements item CSS_SELECTOR "a" = [] /\ In item (without_anchor items)) \/
     (exists link more,
        find_elements item CSS_SELECTOR "a" = link :: more /\
        In (innerText link) (keys (links h)))).
Proof.
  intros items h.
  assert (Hl : links h = assign_all (entries items) []).
  { unfold h, harvest_links. now rewrite harvest_from_items, harvest_items. }
  assert (Hp : printed h = repeat LINK_NOT_FOUND (List.length (without_anchor items))).
  { unfold h, harvest_links. now rewrite harvest_from_items, harvest_items. }
  pose proof (entries_count items) as Hcount.
  pose proof (assign_all_length (entries items) []) as Hlen. simpl in Hlen.
  rewrite Hp, Hl, repeat_length.
  split; [exact Hcount|]. split; [exact Hlen|]. split; [lia|].
  intros item Hin.
  destruct (find_elements item CSS_SELECTOR "a") as [|link more] eqn:Ha.
  - left. split; [reflexivity|]. unfold without_anchor. apply filter_In.
    split; [exact Hin|]. unfold entry_of. now rewrite Ha.
  - right. exists link, more. split; [reflexivity|].
    apply assign_all_has_keys.
    clear - Hin Ha. induction items as [|x items IH]; [contradiction|].
    simpl. destruct Hin as [->|Hin].
    + unfold entry_of. rewrite Ha. now left.
    + destruct (entry_of x); [right|]; now apply IH.
Qed.

Lemma harvest_accounts_for_every_item_witness :
  List.length (printed (harvest_links listing_twice)) = 1 /\
  List.length (links (harvest_links listing_twice)) = 2 /\
  In "Car B" (keys (links (harvest_links listing_twice))).
Proof.
  destruct (harvest_accounts_for_every_item listing_twice) as (_ & _ & _ & Hitem).
  split; [reflexivity|]. split; [reflexivity|].
  destruct (Hitem (list_item [anchor "Car B" "/wiki/B"])) as [[Hnone _]|(link & more & Ha & Hin)].
  - simpl. tauto.
  - discriminate Hnone.
  - injection Ha as <- _. exact Hin.
Defined.

(** A list in a list: the inner item is visited twice, once below each
    list, and its second visit comes after the last item of the outer list,
    so "Car Y" ends with the URL of the inner anchor. *)
Example visits_of_nested_listing :
  list_items nested_listing = [outer_item; inner_item; last_item; inner_item] /\
  entries (list_items nested_listing)
  = [("Car X", Some "/wiki/X"); ("Car Y", Some "/wiki/Y2");
     ("Car Y", Some "/wiki/Y3"); ("Car Y", Some "/wiki/Y2")] /\
  links (harvest_links nested_listing)
  = [("Car X", Some "/wiki/X"); ("Car Y", Some "/wiki/Y2")] /\
  printed (harvest_links nested_listing) = [].
Proof. repeat split. Qed.

(* ================================================================== *)
(** * The loop over the links: what the catalog can hold *)

Lemma traverse_size (limit : nat) (web : Browser)
      (items : list (string * option string)) : forall st,
  List.length (catalog (traverse limit web items st))
  <= List.length (data st) + Nat.min (List.length items) (S (limit - cnt st)).
Proof.
  induction items as [|[name url] items IH]; intros st.
  - simpl. lia.
  - rewrite traverse_cons.
    destruct (scrape web url (value st)) as [[record v]|e]; [|simpl; lia].
    cbv zeta. pose proof (dict_set_length name record (data st)) as Hset.
    destruct (Nat.ltb_spec limit (cnt st + 1)) as [Hlt|Hge].
    + cbn [catalog data List.length]. lia.
    + specialize (IH (mkRun (dict_set name record (data st)) v (cnt st + 1))).
      cbn [data cnt] in IH. cbn [List.length]. lia.
Qed.

(** X7.  Whatever the pages do, the catalog never holds more than
    [limit + 1] records nor more than there are links, and every name in it
    is the name of a link whose URL was a text. *)
Theorem catalog_is_bounded (limit : nat) (web : Browser)
        (items : list (string * option string)) :
  List.length (catalog (traverse limit web items start))
    <= Nat.min (List.length items) (limit + 1) /\
  (forall name record,
      In (name, record) (catalog (traverse limit web items start)) ->
      exists url, In (name, Some url) items).
Proof.
  split.
  - pose proof (traverse_size limit web items start) as H.
    change (data start) with (@nil (string * PyRecord)) in H.
    change (cnt start) with 0 in H. cbn [List.length] in H. lia.
  - intros name record Hin. apply catalog_entry_scraped in Hin.
    destruct Hin as [[]|(url & _ & _ & Hin & _)]. now exists url.
Qed.

Lemma catalog_is_bounded_witness :
  exists url,
    In ("Car B", Some url)
       [("Car A", Some "/wiki/A"); ("Car B", Some "/wiki/B"); ("Car E", Some "/wiki/E")].
Proof.
  apply (proj2 (catalog_is_bounded 1 demo_site
           [("Car A", Some "/wiki/A"); ("Car B", Some "/wiki/B"); ("Car E", Some "/wiki/E")])
           "Car B"
           [("link", VStr "/wiki/B"); ("image", VStr ".../b.png"); ("CLASS", VStr "Sports ")]).
  vm_compute. tauto.
Defined.

(* ================================================================== *)
(** * Create tabular data: records with a field [Vehicle] *)

Lemma last_value_wf {V : Type} (k : string) (d : dict V) :
  dict_wf d -> last_value k d = dict_get k d.
Proof.
  unfold dict_wf. induction d as [|[k' v] d IH]; simpl; [reflexivity|].
  intros Hnd. apply NoDup_cons_iff in Hnd. destruct Hnd as [Hnotin Hnd].
  rewrite (IH Hnd). destruct (String.eqb_spec k' k) as [->|Hne].
  - apply dict_get_none in Hnotin. now rewrite Hnotin.
  - now destruct (dict_get k d).
Qed.

Lemma firsts_NoDup (ks : list string) : forall seen,
  NoDup ks -> firsts seen ks = filter (fun k => negb (mem k seen)) ks.
Proof.
  induction ks as [|k ks IH]; intros seen Hnd; simpl; [reflexivity|].
  apply NoDup_cons_iff in Hnd. destruct Hnd as [Hnotin Hnd].
  destruct (mem k seen) eqn:M; simpl; [now apply IH|].
  f_equal. rewrite (IH _ Hnd). apply filter_ext_in. intros x Hx.
  unfold mem. rewrite existsb_app. simpl.
  destruct (String.eqb_spec x k) as [->|_]; [contradiction|].
  now rewrite !orb_false_r.
Qed.

(** X8.  The flat record of any record: [Vehicle] comes first, followed by
    the record's other fields in their order with their values; [Vehicle]
    holds the record's own field of that name if it has one and the catalog
    key otherwise; and the table has one flat record per catalog entry. *)
Theorem flat_record_fields (vehicle : string) (values : PyRecord) :
  dict_wf values ->
  keys (flat_record vehicle values)
    = "Vehicle" :: filter (fun k => negb (String.eqb k "Vehicle")) (keys values) /\
  dict_get "Vehicle" (flat_record vehicle values)
    = Some (match dict_get "Vehicle" values with
            | Some own => own
            | None => VStr vehicle
            end) /\
  (forall k, k <> "Vehicle" ->
     dict_get k (flat_record vehicle values) = dict_get k values) /\
  (forall data, List.length (tabulate data) = List.length data).
Proof.
  intros Hwf.
  change (flat_record vehicle values)
    with (assign_all values [("Vehicle", VStr vehicle)]).
  split; [|split; [|split]].
  - rewrite assign_all_keys. cbn [keys map fst app].
    rewrite firsts_NoDup by exact Hwf. f_equal.
    apply filter_ext. intros k. unfold mem. simpl. now rewrite orb_false_r.
  - rewrite assign_all_get, (last_value_wf _ _ Hwf).
    now destruct (dict_get "Vehicle" values).
  - intros k Hne. rewrite assign_all_get, (last_value_wf _ _ Hwf).
    destruct (dict_get k values); [reflexivity|].
    cbn [dict_get]. destruct (String.eqb_spec "Vehicle" k); [congruence | reflexivity].
  - intros data. rewrite tabulate_map. apply length_map.
Qed.

Lemma flat_record_fields_witness :
  keys (flat_record "Car V" [("link", VStr "/wiki/V"); ("Vehicle", VStr "Car"); ("Gears", VInt 6)])
    = ["Vehicle"; "link"; "Gears"] /\
  dict_get "Vehicle"
    (flat_record "Car V" [("link", VStr "/wiki/V"); ("Vehicle", VStr "Car"); ("Gears", VInt 6)])
    = Some (VStr "Car").
Proof.
  destruct (flat_record_fields "Car V"
              [("link", VStr "/wiki/V"); ("Vehicle", VStr "Car"); ("Gears", VInt 6)])
    as (Hkeys & Hvehicle & _).
  - unfold dict_wf. simpl. distinct_strings.
  - split; [exact Hkeys | exact Hvehicle].
Defined.

(* ================================================================== *)
(** * Splitting and replacing at one character *)

Lemma prefix_char (c x : ascii) (s : string) :
  prefix (String c EmptyString) (String x s) = Ascii.eqb c x.
Proof.
  simpl. destruct (ascii_dec c x) as [->|Hne].
  - rewrite Ascii.eqb_refl. now destruct s.
  - symmetry. now apply Ascii.eqb_neq.
Qed.

Lemma split_char_cons (c x : ascii) (s : string) :
  Py.split (String c EmptyString) (String x s) =
  if Ascii.eqb c x then EmptyString :: Py.split (String c EmptyString) s
  else match Py.split (String c EmptyString) s with
       | w :: ws => String x w :: ws
       | [] => [String x EmptyString]
       end.
Proof.
  unfold Py.split. cbn [Py.split_aux]. rewrite prefix_char.
  now destruct (Ascii.eqb c x).
Qed.

Lemma lacks_cons (c x : ascii) (s : string) :
  lacks c (String x s) = true <-> Ascii.eqb c x = false /\ lacks c s = true.
Proof.
  unfold lacks. simpl. rewrite andb_true_iff, negb_true_iff, (Ascii.eqb_sym x c).
  tauto.
Qed.

(** The first piece of a split is the text before the first separator. *)
Lemma split_first_piece (c : ascii) (a rest : string) :
  lacks c a = true -> ends_or_starts_with [c] rest ->
  exists more, Py.split (String c EmptyString) (a ++ rest) = a :: more.
Proof.
  intros Ha Hrest. induction a as [|x a IH]; simpl.
  - destruct rest as [|y rest]; [now exists []|].
    destruct Hrest as [<-|[]]. rewrite split_char_cons, Ascii.eqb_refl. now eexists.
  - apply lacks_cons in Ha. destruct Ha as [Hx Ha].
    destruct (IH Ha) as [more Hmore].
    rewrite split_char_cons, Hx, Hmore. now eexists.
Qed.

Lemma split_after_first (c : ascii) (a rest : string) :
  lacks c a = true ->
  Py.split (String c EmptyString) (a ++ String c rest)
  = a :: Py.split (String c EmptyString) rest.
Proof.
  intros Ha. induction a as [|x a IH]; simpl.
  - now rewrite split_char_cons, Ascii.eqb_refl.
  - apply lacks_cons in Ha. destruct Ha as [Hx Ha].
    now rewrite split_char_cons, Hx, (IH Ha).
Qed.

Lemma split_no_separator (c : ascii) (a : string) :
  lacks c a = true -> Py.split (String c EmptyString) a = [a].
Proof.
  intros Ha. destruct (split_first_piece c a EmptyString Ha I) as [more H].
  rewrite append_empty_r in H.
  enough (List.length (Py.split (String c EmptyString) a) = 1) as Hlen
      by (rewrite H in *; destruct more; [reflexivity | discriminate]).
  clear H more. induction a as [|x a IH]; [reflexivity|].
  apply lacks_cons in Ha. destruct Ha as [Hx Ha].
  rewrite split_char_cons, Hx. specialize (IH Ha).
  destruct (Py.split (String c EmptyString) a) as [|w [|w' ws]]; try discriminate.
  reflexivity.
Qed.

(* ================================================================== *)
(** * Set vehicle class *)

Lemma scan_class_first (pre post : list WebElement) (el : WebElement)
      (value : option pyval) :
  (forall d, In d pre -> has_attribute d "data-source" "class" = false) ->
  has_attribute el "data-source" "class" = true ->
  scan_class (pre ++ el :: post) value = Some (VStr (innerText el)).
Proof.
  intros Hpre Hel. induction pre as [|d pre IH]; simpl.
  - now rewrite Hel.
  - rewrite (Hpre d) by now left. apply IH. intros d' Hd'. apply Hpre. now right.
Qed.

(** X3.  The class is read from the first [div] whose [data-source] is
    "class", whatever [value] held before and whatever comes after that
    [div]: it is the second line of the [div]'s text up to its first "(".
    A text of one line raises [IndexError]. *)
Theorem class_is_second_line_before_paren (pre post : list WebElement)
        (el : WebElement) (value : option pyval) :
  (forall d, In d pre -> has_attribute d "data-source" "class" = false) ->
  has_attribute el "data-source" "class" = true ->
  (forall head second after line q,
      innerText el = (head ++ String newline_char (second ++ after))%string ->
      lacks newline_char head = true ->
      lacks newline_char second = true ->
      ends_or_starts_with [newline_char] after ->
      second = (line ++ q)%string ->
      lacks paren line = true ->
      ends_or_starts_with [paren] q ->
      class_of (scan_class (pre ++ el :: post) value) = Ok line) /\
  (lacks newline_char (innerText el) = true ->
   class_of (scan_class (pre ++ el :: post) value) = Raise IndexError).
Proof.
  intros Hpre Hel. rewrite (scan_class_first pre post el value Hpre Hel).
  split.
  - intros head second after line q Htext Hhead Hsecond Hafter Hline Hl Hq.
    unfold class_of. rewrite Htext.
    change Py.newline with (String newline_char EmptyString).
    rewrite (split_after_first newline_char head _ Hhead).
    destruct (split_first_piece newline_char second after Hsecond Hafter) as [more ->].
    cbn [Py.item nth_error bind]. rewrite Hline.
    change "("%string with (String paren EmptyString).
    destruct (split_first_piece paren line q Hl Hq) as [more' ->].
    reflexivity.
  - intros Hone. unfold class_of.
    change Py.newline with (String newline_char EmptyString).
    now rewrite (split_no_separator newline_char _ Hone).
Qed.

Lemma class_is_second_line_before_paren_witness :
  class_of (scan_class [text_node "x"; class_div class_text; class_div "other"] (Some (VInt 3)))
    = Ok "Sports " /\
  class_of (scan_class [class_div "Sports"] None) = Raise IndexError.
Proof.
  split.
  - refine (proj1 (class_is_second_line_before_paren [text_node "x"] [class_div "other"]
                     (class_div class_text) (Some (VInt 3)) _ eq_refl)
              "Vehicle Class" "Sports (needs translation)" "" "Sports "
              "(needs translation)" eq_refl eq_refl eq_refl I eq_refl eq_refl _).
    + intros d [<-|[]]. reflexivity.
    + simpl. now left.
  - refine (proj2 (class_is_second_line_before_paren [] [] (class_div "Sports") None
                     _ eq_refl) eq_refl).
    intros d [].
Defined.

(* ================================================================== *)
(** * Set info: texts that are numeric but no integer *)

Lemma numeric_char_facts (c : ascii) :
  Py.is_numeric_char c = true ->
  Py.is_space c = false /\
  Ascii.eqb c "-" = false /\ Ascii.eqb c "+" = false /\ Ascii.eqb c "_" = false /\
  (Py.is_decimal_char c = false -> Py.digit_of c = None).
Proof.
  intros H. destruct c as [b0 b1 b2 b3 b4 b5 b6 b7].
  destruct b0, b1, b2, b3, b4, b5, b6, b7; try discriminate H;
    (split; [reflexivity|]); (split; [reflexivity|]); (split; [reflexivity|]);
    (split; [reflexivity|]); intros Hd; try discriminate Hd; reflexivity.
Qed.

Lemma numeric_lstrip (s : string) :
  Py.all_chars Py.is_numeric_char s = true -> Py.lstrip s = s.
Proof.
  destruct s as [|c s]; simpl; [reflexivity|].
  intros H. apply andb_true_iff in H. destruct H as [Hc _].
  apply numeric_char_facts in Hc. destruct Hc as (-> & _). reflexivity.
Qed.

Lemma numeric_rstrip (s : string) :
  Py.all_chars Py.is_numeric_char s = true -> Py.rstrip s = s.
Proof.
  induction s as [|c s IH]; simpl; [reflexivity|].
  intros H. apply andb_true_iff in H. destruct H as [Hc Hs].
  rewrite (IH Hs). apply numeric_char_facts in Hc. destruct Hc as (-> & _).
  now destruct s.
Qed.

Lemma numeric_digits_fail (s : string) : forall acc cnt after_digit,
  Py.all_chars Py.is_numeric_char s = true ->
  Py.all_chars Py.is_decimal_char s = false ->
  Py.digits s acc cnt after_digit = None.
Proof.
  induction s as [|c s IH]; intros acc cnt b; simpl; [discriminate|].
  intros Hn Hd. apply andb_true_iff in Hn. destruct Hn as [Hc Hs].
  destruct (numeric_char_facts c Hc) as (_ & _ & _ & -> & Hdigit).
  destruct (Py.is_decimal_char c) eqn:Dc.
  - apply decimal_char_facts in Dc. destruct Dc as (_ & _ & _ & _ & _ & ->).
    apply IH; assumption.
  - now rewrite Hdigit.
Qed.

Lemma numeric_char_cases (c : ascii) :
  Py.is_decimal_char c || is_superscript_or_fraction c = Py.is_numeric_char c.
Proof.
  destruct c as [b0 b1 b2 b3 b4 b5 b6 b7].
  destruct b0, b1, b2, b3, b4, b5, b6, b7; reflexivity.
Qed.

Lemma all_chars_pointwise (p q : ascii -> bool) (s : string) :
  (forall c, p c = q c) -> Py.all_chars p s = Py.all_chars q s.
Proof.
  intros H. induction s as [|c s IH]; simpl; [reflexivity|]. now rewrite H, IH.
Qed.

(** X12.  [isnumeric] accepts more than [int] converts.  An info text made
    of the digits 0-9 and of the superscripts U+00B2, U+00B3, U+00B9 and the
    fractions U+00BC, U+00BD, U+00BE, with at least one of these six among
    them, is numeric and has no integer value: the info extraction raises
    [ValueError] instead of keeping the text. *)
Theorem superscript_or_fraction_raises (element : WebElement) :
  innerText element <> "" ->
  Py.all_chars (fun c => Py.is_decimal_char c || is_superscript_or_fraction c)
               (innerText element) = true ->
  Py.all_chars Py.is_decimal_char (innerText element) = false ->
  Py.isnumeric (innerText element) = true /\
  Py.int (innerText element) = Raise ValueError /\
  info_value element = Raise ValueError.
Proof.
  intros Hne Hchars Hdec.
  assert (Hall : Py.all_chars Py.is_numeric_char (innerText element) = true).
  { now rewrite <- (all_chars_pointwise _ _ _ numeric_char_cases). }
  assert (Hnum : Py.isnumeric (innerText element) = true).
  { unfold Py.isnumeric. destruct (innerText element); [congruence | exact Hall]. }
  assert (Hint : Py.int (innerText element) = Raise ValueError).
  { unfold Py.int. rewrite (numeric_lstrip _ Hall), (numeric_rstrip _ Hall).
    destruct (innerText element) as [|c s] eqn:E; [congruence|].
    pose proof Hall as Hc. simpl in Hc. apply andb_true_iff in Hc. destruct Hc as [Hc _].
    destruct (numeric_char_facts c Hc) as (_ & -> & -> & _).
    now rewrite (numeric_digits_fail _ _ _ _ Hall Hdec). }
  split; [exact Hnum|]. split; [exact Hint|].
  unfold info_value.
  destruct (String.eqb_spec (innerText element) ""); [contradiction|].
  now rewrite Hnum, Hint.
Qed.

Lemma superscript_or_fraction_raises_witness :
  Py.isnumeric ("4" ++ String (ascii_of_nat 178) "") = true /\
  Py.int ("4" ++ String (ascii_of_nat 178) "") = Raise ValueError /\
  info_value (text_node ("4" ++ String (ascii_of_nat 178) "")) = Raise ValueError.
Proof.
  apply (superscript_or_fraction_raises (text_node ("4" ++ String (ascii_of_nat 178) ""))).
  - discriminate.
  - reflexivity.
  - reflexivity.
Defined.


(* ================================================================== *)
(** * The variable [value] from one item to the next *)

Lemma set_info_binds (driver : WebElement) (st st' : PyRecord * option pyval) :
  set_info driver st = Ok st' -> snd st <> None -> snd st' <> None.
Proof.
  unfold set_info.
  destruct (find_elements driver CLASS_NAME CLASS_INFOS) as [|container more].
  - now intros [= <-].
  - apply (for_each_rel (fun a b => snd a <> None -> snd b <> None)).
    + tauto.
    + tauto.
    + intros s idx s1 _. unfold info_step.
      remember (Py.replace "container" ("name" ++ Py.str (idx + 1)) CLASS_INFOS) as cn.
      remember (Py.replace "container" ("data" ++ Py.str (idx + 1)) CLASS_INFOS) as cd.
      succeeded (find_element container CLASS_NAME cn) title.
      succeeded (find_element container CLASS_NAME cd) element.
      succeeded (info_value element) v.
      intros [= <-] _. discriminate.
Qed.

Lemma bind_never {A B : Type} (m : Result A) (k : A -> Result B) (e : exn) :
  m <> Raise e -> (forall a, m = Ok a -> k a <> Raise e) -> bind m k <> Raise e.
Proof.
  destruct m as [a|e']; cbn [bind]; [intros _ H; now apply H|].
  intros H _ [= ->]. now apply H.
Qed.

Lemma find_element_raises (el : WebElement) (by_method : By) (name : string) :
  find_element el by_method name <> Raise NameError.
Proof. unfold find_element. now destruct (find_elements el by_method name). Qed.

Lemma class_of_bound (divs : list WebElement) (x : pyval) :
  exists y, scan_class divs (Some x) = Some y.
Proof.
  induction divs as [|d divs IH]; simpl; [now exists x|].
  destruct (has_attribute d "data-source" "class"); [now eexists | exact IH].
Qed.

Lemma scrape_binds (web : Browser) (url : string) (v v' : option pyval) (r : PyRecord) :
  scrape web (Some url) v = Ok (r, v') -> v' <> None.
Proof.
  unfold scrape.
  succeeded (web url) driver.
  destruct (set_hero driver url v) as [[[container r0] v0]|e] eqn:Hhero; cbn [bind];
    [|discriminate].
  succeeded (set_price container r0) r1.
  succeeded (set_stats driver r1) r2.
  intros Hinfo. apply set_info_binds in Hinfo; [exact Hinfo|].
  cbn [snd]. intros ->. revert Hhero. unfold set_hero.
  succeeded (find_element driver CLASS_NAME "nohero") c.
  succeeded (find_element c XPATH XPATH_IMAGE) el.
  succeeded (image_of (get_attribute el "href")) image.
  destruct (class_of (scan_class (find_elements c TAG_NAME "div") v)) as [class|e] eqn:Hc;
    cbn [bind]; [|discriminate].
  intros [= _ _ Hv]. rewrite Hv in Hc. discriminate.
Qed.

Lemma through_binds (limit : nat) (web : Browser) (pre : list (string * option string)) :
  forall st st',
    through limit web pre st = Some st' ->
    value st <> None \/ pre <> [] -> value st' <> None.
Proof.
  induction pre as [|[name url] pre IH]; intros st st'; simpl.
  - intros [= <-] [H|H]; [exact H | congruence].
  - destruct (scrape web url (value st)) as [[record v]|e] eqn:Hs; [|discriminate].
    destruct (Nat.ltb limit (cnt st + 1)); [discriminate|].
    intros Hthrough _. apply (IH _ _ Hthrough). left. cbn [value].
    destruct url as [url|]; [|discriminate]. exact (scrape_binds _ _ _ _ _ Hs).
Qed.

(** X6.  [value] outlives the item that set it.  Once an item has been
    processed it is bound, so the class extraction of a later item cannot
    raise [NameError]; on a later page without class [div] the extraction
    works on what the previous item left: a number or boolean (the last
    info value) ends the run with [AttributeError], a text is split as if
    it were the page's own. *)
Theorem value_outlives_its_item (limit : nat) (web : Browser) :
  (forall pre st,
      through limit web pre start = Some st -> pre <> [] ->
      (exists x, value st = Some x) /\
      forall driver url, set_hero driver url (value st) <> Raise NameError) /\
  (forall st name url rest driver container element image x,
      value st = Some x ->
      web url = Ok driver ->
      find_element driver CLASS_NAME "nohero" = Ok container ->
      find_element container XPATH XPATH_IMAGE = Ok element ->
      image_of (get_attribute element "href") = Ok image ->
      (forall el, In el (find_elements container TAG_NAME "div") ->
                  has_attribute el "data-source" "class" = false) ->
      match x with
      | VStr s =>
          set_hero driver url (value st) =
          (class <- class_of (Some (VStr s)) ;;
           Ok (container,
               [("link", VStr url); ("image", VStr image); ("CLASS", VStr class)],
               Some (VStr s)))
      | VInt _ | VBool _ =>
          traverse limit web ((name, Some url) :: rest) st
          = Aborted AttributeError (data st)
      end).
Proof.
  split.
  - intros pre st Hthrough Hne.
    assert (Hbound : value st <> None)
      by (apply (through_binds limit web pre start st Hthrough); now right).
    destruct (value st) as [x|] eqn:Hv; [|congruence].
    split; [now exists x|].
    intros driver url. unfold set_hero.
    apply bind_never; [apply find_element_raises|]. intros c _.
    apply bind_never; [apply find_element_raises|]. intros el _.
    apply bind_never.
    { unfold image_of. destruct (get_attribute el "href"); [|discriminate].
      unfold Py.index. destruct (Py.find _ _); discriminate. }
    intros image _.
    destruct (class_of_bound (find_elements c TAG_NAME "div") x) as [y ->].
    apply bind_never; [|discriminate].
    destruct y as [s|n|b]; cbn [class_of]; try discriminate.
    apply bind_never; unfold Py.item; [now destruct (nth_error _ 1) | intros line _].
    now destruct (nth_error _ 0).
  - intros st name url rest driver container element image x Hv Hweb Hc He Himg Hdivs.
    assert (Hscan : forall v, scan_class (find_elements container TAG_NAME "div") v = v).
    { intros v. induction (find_elements container TAG_NAME "div") as [|el divs IH];
        [reflexivity|].
      simpl. rewrite (Hdivs el) by now left. apply IH. intros el' Hin.
      apply Hdivs. now right. }
    pose proof (set_hero_unfold driver container element url (value st) Hc He) as Hhero.
    rewrite Himg, Hscan, Hv in Hhero. cbn [bind] in Hhero.
    destruct x as [s|n|b].
    + rewrite Hv. exact Hhero.
    + rewrite traverse_cons, Hv.
      now rewrite (scrape_hero_raises web driver url _ AttributeError Hweb Hhero).
    + rewrite traverse_cons, Hv.
      now rewrite (scrape_hero_raises web driver url _ AttributeError Hweb Hhero).
Qed.

Lemma value_outlives_its_item_witness :
  (exists x, value (mkRun [("Car A", [("link", VStr "/wiki/A"); ("image", VStr ".../a.PNG");
                             ("CLASS", VStr "Sports "); ("PRICE", VInt 500000)])]
                          (Some (VStr class_text)) 1) = Some x) /\
  traverse LIMIT stale_site [("Car C", Some "/wiki/C")] (mkRun [] (Some (VInt 2)) 1)
  = Aborted AttributeError [].
Proof.
  destruct (value_outlives_its_item LIMIT demo_site) as [Hbound _].
  destruct (value_outlives_its_item LIMIT stale_site) as [_ Hstale].
  split.
  - apply (Hbound [("Car A", Some "/wiki/A")]); [reflexivity | discriminate].
  - apply (Hstale (mkRun [] (Some (VInt 2)) 1) "Car C" "/wiki/C" []
             (classless_page ".../c.png") (classless_hero ".../c.png")
             (anchor "" ".../c.png") ".../c.png" (VInt 2)
             eq_refl eq_refl eq_refl eq_refl eq_refl).
    intros el [<-|[<-|[]]]; reflexivity.
Defined.

Example stale_number_ends_the_run :
  exists record,
    traverse LIMIT stale_site [("Car N", Some "/wiki/N"); ("Car C", Some "/wiki/C")] start
    = Aborted AttributeError [("Car N", record)].
Proof. eexists. vm_compute. reflexivity. Qed.

(* ================================================================== *)
(** * Set stats and set info: labels and values that are not there *)

Lemma for_each_raises {A S : Type} (body : S -> A -> Result S) (xs zs : list A) (y : A)
      (s s' : S) (e : exn) :
  for_each body xs s = Ok s' -> body s' y = Raise e ->
  for_each body (xs ++ y :: zs) s = Raise e.
Proof.
  revert s. induction xs as [|x xs IH]; intros s; simpl.
  - intros [= ->] Hy. now rewrite Hy.
  - destruct (body s x) as [s1|e1]; cbn [bind]; [apply IH | discriminate].
Qed.

Lemma seq_split_at (n idx : nat) :
  idx < n -> seq 0 n = seq 0 idx ++ idx :: seq (S idx) (n - S idx).
Proof.
  intros H. replace n with (idx + S (n - S idx)) at 1 by lia.
  now rewrite seq_app.
Qed.

Lemma find_element_none (el : WebElement) (by_method : By) (name : string) :
  find_elements el by_method name = [] ->
  find_element el by_method name = Raise NoSuchElementException.
Proof. intros H. unfold find_element. now rewrite H. Qed.

(** X5.  The lookups of the labels, bars and values are not guarded: when
    the stats (info) container is there and the loop meets an index below
    4 (7) whose label or whose bar (value) is missing, it raises
    [NoSuchElementException], and the fields of the earlier indices are
    lost with it. *)
Theorem missing_label_or_value_raises :
  (forall driver container more record record' idx,
      find_elements driver CLASS_NAME CLASS_STATS = container :: more ->
      idx < 4 ->
      for_each (stat_step container) (seq 0 idx) record = Ok record' ->
      find_elements container CLASS_NAME ("rssc-stats-name" ++ Py.str (idx + 1)) = [] \/
      find_elements container CLASS_NAME ("rssc-stats-data" ++ Py.str (idx + 1)) = [] ->
      set_stats driver record = Raise NoSuchElementException) /\
  (forall driver container more st st' idx,
      find_elements driver CLASS_NAME CLASS_INFOS = container :: more ->
      idx < 7 ->
      for_each (info_step container) (seq 0 idx) st = Ok st' ->
      find_elements container CLASS_NAME ("rssc-info-name" ++ Py.str (idx + 1)) = [] \/
      find_elements container CLASS_NAME ("rssc-info-data" ++ Py.str (idx + 1)) = [] ->
      set_info driver st = Raise NoSuchElementException).
Proof.
  split.
  - intros driver container more record record' idx Hc Hidx Hbefore Hmissing.
    unfold set_stats. rewrite Hc, (seq_split_at 4 idx Hidx).
    apply (for_each_raises _ _ _ _ _ record' _ Hbefore).
    unfold stat_step. rewrite !indexed_class_stats.
    change ("rssc-stats-" ++ "name" ++ Py.str (idx + 1))%string
      with ("rssc-stats-name" ++ Py.str (idx + 1))%string.
    change ("rssc-stats-" ++ "data" ++ Py.str (idx + 1))%string
      with ("rssc-stats-data" ++ Py.str (idx + 1))%string.
    destruct Hmissing as [Hn|Hd].
    + now rewrite (find_element_none _ _ _ Hn).
    + rewrite (find_element_none _ _ _ Hd). unfold find_element.
      now destruct (find_elements container CLASS_NAME
                      ("rssc-stats-name" ++ Py.str (idx + 1))).
  - intros driver container more st st' idx Hc Hidx Hbefore Hmissing.
    unfold set_info. rewrite Hc, (seq_split_at 7 idx Hidx).
    apply (for_each_raises _ _ _ _ _ st' _ Hbefore).
    unfold info_step. rewrite !indexed_class_infos.
    change ("rssc-info-" ++ "name" ++ Py.str (idx + 1))%string
      with ("rssc-info-name" ++ Py.str (idx + 1))%string.
    change ("rssc-info-" ++ "data" ++ Py.str (idx + 1))%string
      with ("rssc-info-data" ++ Py.str (idx + 1))%string.
    destruct Hmissing as [Hn|Hd].
    + now rewrite (find_element_none _ _ _ Hn).
    + rewrite (find_element_none _ _ _ Hd). unfold find_element.
      now destruct (find_elements container CLASS_NAME
                      ("rssc-info-name" ++ Py.str (idx + 1))).
Qed.

Lemma missing_label_or_value_raises_witness :
  set_stats one_stat_page [("link", VStr "/wiki/O")] = Raise NoSuchElementException /\
  set_info one_info_page ([("link", VStr "/wiki/I")], None) = Raise NoSuchElementException.
Proof.
  destruct missing_label_or_value_raises as [Hstats Hinfo].
  split.
  - apply (Hstats one_stat_page (stats_of [("Speed", [80%Z])]) []
             [("link", VStr "/wiki/O")] [("link", VStr "/wiki/O"); ("Speed", VInt 80)] 1
             eq_refl); [lia | reflexivity | now left].
  - apply (Hinfo one_info_page (infos_of [("Gears", text_node "6")]) []
             ([("link", VStr "/wiki/I")], None)
             ([("link", VStr "/wiki/I"); ("Gears", VInt 6)], Some (VInt 6)) 1
             eq_refl); [lia | reflexivity | now right].
Defined.

(* ================================================================== *)
(** * The record of a page: how many fields *)

Lemma for_each_bound {A S : Type} (size : S -> nat) (body : S -> A -> Result S)
      (xs : list A) :
  (forall s x s1, body s x = Ok s1 -> size s <= size s1 <= size s + 1) ->
  forall s s1, for_each body xs s = Ok s1 ->
               size s <= size s1 <= size s + List.length xs.
Proof.
  intros Hbody. induction xs as [|x xs IH]; intros s s1; simpl.
  - intros [= <-]. lia.
  - destruct (body s x) as [s2|e] eqn:Hx; cbn [bind]; [|discriminate].
    intros Hrest. apply Hbody in Hx. apply IH in Hrest. lia.
Qed.

Lemma set_price_length (container : WebElement) (r r' : PyRecord) :
  set_price container r = Ok r' ->
  List.length r <= List.length r' <= List.length r + 1.
Proof.
  unfold set_price.
  destruct (find_elements container XPATH XPATH_PRICE) as [|element more].
  - intros [= <-]. lia.
  - destruct (Py.contains "$" (innerText element)); [|intros [= <-]; lia].
    destruct (Py.index "$" _) as [idx|e]; cbn [bind]; [|discriminate].
    destruct (Py.item _ 0) as [token|e]; cbn [bind]; [|discriminate].
    succeeded (Py.int (Py.replace "$" "" token)) n.
    intros [= <-]. apply dict_set_length.
Qed.

Lemma set_stats_length (driver : WebElement) (r r' : PyRecord) :
  set_stats driver r = Ok r' ->
  List.length r <= List.length r' <= List.length r + 4.
Proof.
  unfold set_stats.
  destruct (find_elements driver CLASS_NAME CLASS_STATS) as [|container more].
  - intros [= <-]. lia.
  - apply (for_each_bound (@List.length (string * pyval)) _ (seq 0 4)).
    intros s idx s1. unfold stat_step.
    remember (Py.replace "container" ("name" ++ Py.str (idx + 1)) CLASS_STATS) as cn.
    remember (Py.replace "container" ("data" ++ Py.str (idx + 1)) CLASS_STATS) as cd.
    succeeded (find_element container CLASS_NAME cn) title.
    succeeded (find_element container CLASS_NAME cd) stats.
    destruct (find_elements stats XPATH "div[1]/div[1]") as [|element els].
    + intros [= <-]. lia.
    + intros [= <-]. apply dict_set_length.
Qed.

Lemma set_info_length (driver : WebElement) (st st' : PyRecord * option pyval) :
  set_info driver st = Ok st' ->
  List.length (fst st) <= List.length (fst st') <= List.length (fst st) + 7.
Proof.
  unfold set_info.
  destruct (find_elements driver CLASS_NAME CLASS_INFOS) as [|container more].
  - intros [= <-]. lia.
  - apply (for_each_bound (fun s : PyRecord * option pyval => List.length (fst s))
                          _ (seq 0 7)).
    intros s idx s1. unfold info_step.
    remember (Py.replace "container" ("name" ++ Py.str (idx + 1)) CLASS_INFOS) as cn.
    remember (Py.replace "container" ("data" ++ Py.str (idx + 1)) CLASS_INFOS) as cd.
    succeeded (find_element container CLASS_NAME cn) title.
    succeeded (find_element container CLASS_NAME cd) element.
    succeeded (info_value element) v.
    intros [= <-]. cbn [fst]. apply dict_set_length.
Qed.

(** X10.  The record of a page has at least the three fields [link],
    [image], [CLASS] and at most fifteen: the price adds at most one field,
    the stats at most four and the info at most seven. *)
Theorem record_has_3_to_15_fields (web : Browser) (url : string)
        (v v' : option pyval) (r : PyRecord) :
  scrape web (Some url) v = Ok (r, v') ->
  3 <= List.length r <= 15 /\
  exists driver container r0 v0 r1 r2,
    web url = Ok driver /\
    set_hero driver url v = Ok (container, r0, v0) /\ List.length r0 = 3 /\
    set_price container r0 = Ok r1 /\ List.length r1 <= List.length r0 + 1 /\
    set_stats driver r1 = Ok r2 /\ List.length r2 <= List.length r1 + 4 /\
    set_info driver (r2, v0) = Ok (r, v') /\ List.length r <= List.length r2 + 7.
Proof.
  unfold scrape.
  destruct (web url) as [driver|e]; cbn [bind]; [|discriminate].
  destruct (set_hero driver url v) as [[[container r0] v0]|e] eqn:Hhero; cbn [bind];
    [|discriminate].
  destruct (set_price container r0) as [r1|e] eqn:Hprice; cbn [bind]; [|discriminate].
  destruct (set_stats driver r1) as [r2|e] eqn:Hstats; cbn [bind]; [|discriminate].
  intros Hinfo.
  pose proof (set_hero_ok _ _ _ _ _ _ Hhero) as (image & class & Hr0).
  assert (H0 : List.length r0 = 3) by now rewrite Hr0.
  pose proof (set_price_length _ _ _ Hprice) as H1.
  pose proof (set_stats_length _ _ _ Hstats) as H2.
  pose proof (set_info_length _ _ _ Hinfo) as H3. cbn [fst] in H3.
  split; [lia|].
  exists driver, container, r0, v0, r1, r2.
  repeat (split; [reflexivity || assumption || lia|]). lia.
Qed.

Lemma record_has_3_to_15_fields_witness :
  3 <= List.length [("link", VStr "/wiki/A"); ("image", VStr ".../a.PNG");
                    ("CLASS", VStr "Sports "); ("PRICE", VInt 500000)] <= 15.
Proof.
  exact (proj1 (record_has_3_to_15_fields demo_site "/wiki/A" None
                  (Some (VStr class_text))
                  [("link", VStr "/wiki/A"); ("image", VStr ".../a.PNG");
                   ("CLASS", VStr "Sports "); ("PRICE", VInt 500000)] eq_refl)).
Defined.

Example full_page_has_14_fields :
  exists r v, scrape demo_site (Some "/wiki/V") None = Ok (r, v) /\ List.length r = 14.
Proof. do 2 eexists. split; vm_compute; reflexivity. Qed.

(* ================================================================== *)
(** * Set image: cutting twice *)

Lemma substring_of_prefix (s : string) : forall j n m,
  j + n <= m -> substring j n (substring 0 m s) = substring j n s.
Proof.
  induction s as [|c s IH]; intros j n m H.
  - now rewrite !substring_empty.
  - destruct m as [|m].
    + assert (j = 0) by lia. assert (n = 0) by lia. subst. reflexivity.
    + destruct j as [|j]; simpl.
      * destruct n as [|n]; [reflexivity|]. rewrite IH by lia. reflexivity.
      * apply IH. lia.
Qed.

Lemma find_first (sub s : string) (i : nat) :
  occurs_at sub s i -> (forall j, j < i -> ~ occurs_at sub s j) ->
  Py.find sub s = Some i.
Proof.
  intros Hi Hbefore. destruct (Py.find sub s) as [k|] eqn:F.
  - destruct (find_some _ _ _ F) as [Hk Hfirst].
    destruct (Nat.lt_trichotomy k i) as [Hlt|[->|Hgt]].
    + elim (Hbefore k Hlt Hk).
    + reflexivity.
    + elim (Hfirst i Hgt Hi).
  - elim (find_none _ _ F i Hi).
Qed.

Lemma prefix_of_substring (s : string) : forall m, prefix (substring 0 m s) s = true.
Proof.
  induction s as [|c s IH]; intros [|m]; simpl; try reflexivity.
  destruct (ascii_dec c c); [apply IH | congruence].
Qed.

Lemma length_of_substring (s : string) : forall m,
  String.length (substring 0 m s) <= String.length s.
Proof.
  induction s as [|c s IH]; intros [|m]; simpl; try lia.
  specialize (IH m). lia.
Qed.

(** X11.  Cutting is idempotent: the image of a URL is a prefix of the URL
    and is its own image. *)
Theorem image_of_image (url image : string) :
  image_of (Some url) = Ok image ->
  image_of (Some image) = Ok image /\
  prefix image url = true /\
  String.length image <= String.length url.
Proof.
  unfold image_of at 1. unfold Py.index.
  destruct (Py.find ".png" (Py.lower url)) as [i|] eqn:F; cbn [bind]; [|discriminate].
  intros H. injection H as <-. unfold Py.slice_to.
  destruct (find_some _ _ _ F) as [Hi Hfirst]. unfold occurs_at in Hi, Hfirst.
  assert (Hfind : Py.find ".png" (Py.lower (substring 0 (i + 4) url)) = Some i).
  { apply find_first; unfold occurs_at; rewrite lower_substring.
    - rewrite substring_of_prefix by (simpl; lia). exact Hi.
    - intros j Hj. rewrite substring_of_prefix by (simpl; lia). now apply Hfirst. }
  split; [|split].
  - unfold image_of, Py.index. rewrite Hfind. cbn [bind]. unfold Py.slice_to.
    now rewrite substring_of_prefix by lia.
  - apply prefix_of_substring.
  - apply length_of_substring.
Qed.

Lemma image_of_image_witness :
  image_of (Some ".../car.PNG") = Ok ".../car.PNG" /\
  prefix ".../car.PNG" ".../car.PNG?revision=3" = true.
Proof.
  destruct (image_of_image ".../car.PNG?revision=3" ".../car.PNG" eq_refl) as (H1 & H2 & _).
  split; [exact H1 | exact H2].
Defined.

(* ================================================================== *)
(** * Set price: any price text *)

Lemma append_assoc_3 (a b c : string) : ((a ++ b) ++ c = a ++ (b ++ c))%string.
Proof. induction a as [|x a IH]; simpl; [reflexivity | now rewrite IH]. Qed.

Lemma replace_char_cons (c x : ascii) (new s : string) :
  Py.replace (String c EmptyString) new (String x s) =
  ((if Ascii.eqb c x then new else String x EmptyString)
     ++ Py.replace (String c EmptyString) new s)%string.
Proof.
  unfold Py.replace. cbn [Py.replace_aux]. rewrite prefix_char.
  now destruct (Ascii.eqb c x).
Qed.

Lemma replace_char_app (c : ascii) (new a b : string) :
  Py.replace (String c EmptyString) new (a ++ b) =
  (Py.replace (String c EmptyString) new a ++ Py.replace (String c EmptyString) new b)%string.
Proof.
  induction a as [|x a IH]; [reflexivity|].
  cbn [append]. now rewrite !replace_char_cons, IH, append_assoc_3.
Qed.

Lemma replace_char_lacks (c : ascii) (new s : string) :
  lacks c s = true -> Py.replace (String c EmptyString) new s = s.
Proof.
  induction s as [|x s IH]; [reflexivity|].
  intros H. apply lacks_cons in H. destruct H as [Hx Hs].
  now rewrite replace_char_cons, Hx, (IH Hs).
Qed.

Lemma lacks_app (c : ascii) (a b : string) :
  lacks c (a ++ b) = lacks c a && lacks c b.
Proof.
  unfold lacks. induction a as [|x a IH]; simpl; [reflexivity|].
  now rewrite IH, andb_assoc.
Qed.

Lemma replace_char_keeps_lacks (d c : ascii) (new s : string) :
  lacks d new = true -> lacks d s = true ->
  lacks d (Py.replace (String c EmptyString) new s) = true.
Proof.
  intros Hnew. induction s as [|x s IH]; [reflexivity|].
  intros H. apply lacks_cons in H. destruct H as [Hx Hs].
  rewrite replace_char_cons, lacks_app, (IH Hs), andb_true_r.
  destruct (Ascii.eqb c x); [exact Hnew|].
  apply lacks_cons. now split.
Qed.

Lemma decimal_lacks (c : ascii) (s : string) :
  Py.is_decimal_char c = false ->
  Py.all_chars Py.is_decimal_char s = true -> lacks c s = true.
Proof.
  intros Hc. induction s as [|x s IH]; [reflexivity|]. simpl.
  intros H. apply andb_true_iff in H. destruct H as [Hx Hs].
  apply lacks_cons. split; [|now apply IH].
  destruct (Ascii.eqb_spec c x) as [->|]; [congruence | reflexivity].
Qed.

(** Without its commas, a text of digits and commas is a text of digits. *)
Lemma commas_removed (body : string) :
  Py.all_chars is_price_char body = true ->
  Py.all_chars Py.is_decimal_char (Py.replace "," "" body) = true.
Proof.
  induction body as [|x body IH]; [reflexivity|]. simpl.
  intros H. apply andb_true_iff in H. destruct H as [Hx Hb].
  change ","%string with (String ","%char EmptyString).
  rewrite replace_char_cons. specialize (IH Hb).
  change ","%string with (String ","%char EmptyString) in IH.
  destruct (Ascii.eqb_spec ","%char x) as [<-|Hne]; [exact IH|].
  simpl. rewrite IH, andb_true_r.
  unfold is_price_char in Hx. apply orb_true_iff in Hx. destruct Hx as [Hx|Hx]; [exact Hx|].
  apply Ascii.eqb_eq in Hx. congruence.
Qed.

Lemma find_char_first (c : ascii) (a rest : string) :
  lacks c a = true ->
  Py.find (String c EmptyString) (a ++ String c rest) = Some (String.length a).
Proof.
  intros Ha. induction a as [|x a IH].
  - simpl append. rewrite find_unfold, prefix_char, Ascii.eqb_refl. reflexivity.
  - apply lacks_cons in Ha. destruct Ha as [Hx Ha].
    cbn [append]. rewrite find_unfold, prefix_char, Hx, (IH Ha). reflexivity.
Qed.

Lemma slice_from_app (a b : string) : Py.slice_from (String.length a) (a ++ b) = b.
Proof.
  unfold Py.slice_from. induction a as [|x a IH].
  - simpl. rewrite Nat.sub_0_r. apply substring_0_all.
  - simpl. exact IH.
Qed.

Lemma tidy_app (a b : string) : tidy (a ++ b) = (tidy a ++ tidy b)%string.
Proof.
  unfold tidy.
  change ","%string with (String ","%char EmptyString).
  change Py.newline with (String newline_char EmptyString).
  change "("%string with (String paren EmptyString).
  now rewrite !replace_char_app.
Qed.

Lemma tidy_keeps_lacking_dollar (pre : string) :
  lacks dollar pre = true -> lacks dollar (tidy pre) = true.
Proof.
  intros H. unfold tidy.
  change ","%string with (String ","%char EmptyString).
  change Py.newline with (String newline_char EmptyString).
  change "("%string with (String paren EmptyString).
  repeat apply replace_char_keeps_lacks; try reflexivity. exact H.
Qed.

Lemma tidy_body (body : string) :
  Py.all_chars is_price_char body = true -> tidy body = Py.replace "," "" body.
Proof.
  intros H. apply commas_removed in H. unfold tidy.
  change Py.newline with (String newline_char EmptyString).
  change "("%string with (String paren EmptyString).
  rewrite (replace_char_lacks newline_char) by (now apply decimal_lacks).
  now rewrite (replace_char_lacks paren) by (now apply decimal_lacks).
Qed.

Lemma tidy_suffix (suffix : string) :
  ends_or_starts_with [blank; newline_char; paren] suffix ->
  ends_or_starts_with [blank] (tidy suffix).
Proof.
  destruct suffix as [|y rest]; [exact (fun H => H)|].
  intros Hy. change (String y rest) with (String y EmptyString ++ rest)%string.
  rewrite tidy_app.
  destruct Hy as [<-|[<-|[<-|[]]]]; now left.
Qed.

(** X4.  Any price text: the first "$" counts, the digits after it are the
    price, commas among them are dropped, and what follows a blank, a line
    break or an opening parenthesis after the digits is ignored; what stands
    before the "$" does not matter. *)
Theorem price_of_any_text (container element : WebElement) (more : list WebElement)
        (record : PyRecord) (pre body suffix : string) :
  find_elements container XPATH XPATH_PRICE = element :: more ->
  innerText element = (pre ++ String dollar (body ++ suffix))%string ->
  lacks dollar pre = true ->
  Py.all_chars is_price_char body = true ->
  Py.replace "," "" body <> "" ->
  String.length (Py.replace "," "" body) <= Py.int_max_str_digits ->
  ends_or_starts_with [blank; newline_char; paren] suffix ->
  set_price container record
  = Ok (dict_set "PRICE" (VInt (decimal_value (Py.replace "," "" body) 0)) record).
Proof.
  intros Hfind Htext Hpre Hbody Hne Hlen Hsuffix.
  unfold set_price. rewrite Hfind.
  assert (Hin : Py.contains "$" (innerText element) = true).
  { unfold Py.contains. rewrite Htext.
    change "$"%string with (String dollar EmptyString).
    now rewrite (find_char_first dollar pre _ Hpre). }
  rewrite Hin. cbv zeta.
  change (Py.replace "(" " " (Py.replace Py.newline " "
            (Py.replace "," "" (innerText element))))
    with (tidy (innerText element)).
  set (digits := Py.replace "," "" body) in *.
  assert (Htidy : tidy (innerText element)
                  = (tidy pre ++ String dollar (digits ++ tidy suffix))%string).
  { rewrite Htext, tidy_app.
    change (String dollar (body ++ suffix))
      with (String dollar EmptyString ++ (body ++ suffix))%string.
    now rewrite !tidy_app, (tidy_body body Hbody). }
  rewrite Htidy.
  pose proof (commas_removed body Hbody) as Hdigits. fold digits in Hdigits.
  unfold Py.index. change "$"%string with (String dollar EmptyString).
  rewrite (find_char_first dollar (tidy pre) _ (tidy_keeps_lacking_dollar pre Hpre)).
  cbn [bind]. rewrite slice_from_app.
  change " "%string with (String blank EmptyString).
  change (String dollar (digits ++ tidy suffix))
    with (String dollar digits ++ tidy suffix)%string.
  destruct (split_first_piece blank (String dollar digits) (tidy suffix)) as [pieces ->].
  { apply lacks_cons. split; [reflexivity|]. now apply decimal_lacks. }
  { now apply tidy_suffix. }
  cbn [Py.item nth_error bind].
  rewrite replace_char_cons, Ascii.eqb_refl.
  rewrite (replace_char_lacks dollar) by (now apply decimal_lacks).
  cbn [append]. rewrite (int_of_decimal digits Hne Hdigits Hlen). reflexivity.
Qed.

Lemma price_of_any_text_witness :
  set_price (price_hero ("Price (in, GTA)" ++ Py.newline ++ "$2,500,000(Warstock)")) []
  = Ok [("PRICE", VInt 2500000)].
Proof.
  refine (price_of_any_text
            (price_hero ("Price (in, GTA)" ++ Py.newline ++ "$2,500,000(Warstock)"))
            (text_node ("Price (in, GTA)" ++ Py.newline ++ "$2,500,000(Warstock)")) [] []
            ("Price (in, GTA)" ++ Py.newline) "2,500,000" "(Warstock)"
            eq_refl eq_refl eq_refl eq_refl _ _ _).
  - discriminate.
  - unfold Py.int_max_str_digits. simpl. lia.
  - simpl. tauto.
Defined.

(* ================================================================== *)
(** * The program: what a run writes *)

Lemma get_element_found (driver x : WebElement) (more : list WebElement)
      (by_method : By) (name : string) :
  find_elements driver by_method name = x :: more ->
  get_element driver by_method name = Ok x.
Proof. intros H. unfold get_element, find_element. now rewrite H. Qed.

(** X9.  A run writes all or only the links.  Without the listing table
    nothing is written and the run ends with [TimeoutException].  With it,
    the links are written before any page is visited; if then an item
    raises, however many items were scraped before it, neither the
    vehicles nor the table are written; if the loop ends normally both are
    written, with one table row per vehicle, for the first [LIMIT + 1]
    links. *)
Theorem run_writes_all_or_only_links (web : Browser) (page : WebElement) :
  web URL_VEHICLE = Ok page ->
  (find_elements page XPATH XPATH_TABLE = [] ->
   main web = mkOutput [] None None None (Some TimeoutException)) /\
  (forall vehicle_table more,
      find_elements page XPATH XPATH_TABLE = vehicle_table :: more ->
      let h := harvest_links vehicle_table in
      stdout (main web) = printed h /\
      gta_links_json (main web) = Some (links h) /\
      (forall pre name url post st e,
          links h = pre ++ (name, url) :: post ->
          through LIMIT web pre start = Some st ->
          scrape web url (value st) = Raise e ->
          uncaught (main web) = Some e /\
          gta_vehicles_json (main web) = None /\
          Vehicles_Table_json (main web) = None) /\
      (forall st,
          traverse LIMIT web (links h) start = Finished st ->
          uncaught (main web) = None /\
          gta_vehicles_json (main web) = Some (data st) /\
          Vehicles_Table_json (main web) = Some (tabulate (data st)) /\
          List.length (tabulate (data st)) = List.length (data st) /\
          keys (data st) = firstn (LIMIT + 1) (keys (links h)))).
Proof.
  intros Hweb. split.
  - intros Hnone. unfold main, get_element. rewrite Hweb. cbn [bind]. now rewrite Hnone.
  - intros vehicle_table more Hfound h.
    assert (Hmain : main web =
              match traverse LIMIT web (links h) start with
              | Aborted e _ => mkOutput (printed h) (Some (links h)) None None (Some e)
              | Finished st =>
                  mkOutput (printed h) (Some (links h)) (Some (data st))
                           (Some (tabulate (data st))) None
              end).
    { unfold main. rewrite Hweb. cbn [bind].
      now rewrite (get_element_found _ _ _ _ _ Hfound). }
    split; [|split; [|split]].
    + rewrite Hmain. now destruct (traverse LIMIT web (links h) start).
    + rewrite Hmain. now destruct (traverse LIMIT web (links h) start).
    + intros pre name url post st e Hlinks Hpre Hraise.
      rewrite Hmain, Hlinks, (through_traverse _ _ _ _ _ _ Hpre), traverse_cons, Hraise.
      repeat split.
    + intros st Hrun. rewrite Hmain, Hrun. cbn [uncaught gta_vehicles_json Vehicles_Table_json].
      repeat (split; [reflexivity|]). split.
      * rewrite tabulate_map. apply length_map.
      * apply traverse_keys in Hrun; [exact Hrun|].
        apply (harvest_links_wf vehicle_table).
Qed.

Lemma run_writes_all_or_only_links_witness :
  stdout (main demo_web) = [LINK_NOT_FOUND] /\
  gta_links_json (main demo_web)
    = Some [("Car A", Some "/wiki/A"); ("Car D", Some "/wiki/D"); ("Car B", Some "/wiki/B")] /\
  uncaught (main demo_web) = Some ValueError /\
  gta_vehicles_json (main demo_web) = None /\
  Vehicles_Table_json (main demo_web) = None.
Proof.
  destruct (proj2 (run_writes_all_or_only_links demo_web listing_page eq_refl)
              (table_of [[list_item [anchor "Car A" "/wiki/A"]; list_item [];
                          list_item [anchor "Car D" "/wiki/D"];
                          list_item [anchor "Car B" "/wiki/B"]]]) [] eq_refl)
    as (Hout & Hlinks & Habort & _).
  split; [exact Hout|]. split; [exact Hlinks|].
  exact (Habort [("Car A", Some "/wiki/A")] "Car D" (Some "/wiki/D")
           [("Car B", Some "/wiki/B")]
           (mkRun [("Car A", [("link", VStr "/wiki/A"); ("image", VStr ".../a.PNG");
                              ("CLASS", VStr "Sports "); ("PRICE", VInt 500000)])]
                  (Some (VStr class_text)) 1)
           ValueError eq_refl eq_refl eq_refl).
Defined.

(* ================================================================== *)
(** * Set info: the seven fields *)

Lemma info_fields_get (title : nat -> WebElement) (val : nat -> pyval) (idxs : list nat) :
  forall record,
    NoDup (map (fun i => innerText (title i)) idxs) ->
    (forall idx, In idx idxs ->
       dict_get (innerText (title idx)) (fold_left (info_field title val) idxs record)
       = Some (val idx)) /\
    (forall k, ~ In k (map (fun i => innerText (title i)) idxs) ->
       dict_get k (fold_left (info_field title val) idxs record) = dict_get k record).
Proof.
  induction idxs as [|i idxs IH]; intros record Hnd.
  - split; [intros idx []|reflexivity].
  - apply NoDup_cons_iff in Hnd. destruct Hnd as [Hnotin Hnd].
    destruct (IH (info_field title val record i) Hnd) as [IHin IHout].
    split.
    + intros idx [<-|Hin]; cbn [fold_left].
      * rewrite IHout by assumption. apply dict_get_set_same.
      * now apply IHin.
    + intros k Hk. simpl in Hk. cbn [fold_left]. rewrite IHout by tauto.
      apply dict_get_set_other. intros Heq. apply Hk. now left.
Qed.

(** X13.  Without an info container the record and [value] stay as they
    are.  With one whose seven labels and seven values are found and
    converted, the loop assigns label after label in the order of the
    indices and leaves the seventh value in [value]; with distinct labels
    every label then holds its own value. *)
Theorem info_loop_assigns_seven_fields :
  (forall driver st,
      find_elements driver CLASS_NAME CLASS_INFOS = [] -> set_info driver st = Ok st) /\
  (forall driver container more record v (title element : nat -> WebElement)
          (val : nat -> pyval),
      find_elements driver CLASS_NAME CLASS_INFOS = container :: more ->
      (forall idx, idx < 7 ->
         find_element container CLASS_NAME ("rssc-info-name" ++ Py.str (idx + 1))
         = Ok (title idx)) ->
      (forall idx, idx < 7 ->
         find_element container CLASS_NAME ("rssc-info-data" ++ Py.str (idx + 1))
         = Ok (element idx)) ->
      (forall idx, idx < 7 -> info_value (element idx) = Ok (val idx)) ->
      set_info driver (record, v)
      = Ok (fold_left (info_field title val) (seq 0 7) record, Some (val 6)) /\
      (NoDup (map (fun i => innerText (title i)) (seq 0 7)) ->
       forall idx, idx < 7 ->
         dict_get (innerText (title idx)) (fold_left (info_field title val) (seq 0 7) record)
         = Some (val idx))).
Proof.
  split.
  - intros driver st Hnone. unfold set_info. now rewrite Hnone.
  - intros driver container more record v title element val Hc Htitle Helement Hval.
    split.
    + unfold set_info. rewrite Hc.
      rewrite (for_each_total (info_step container)
                 (fun s idx => (info_field title val (fst s) idx, Some (val idx)))).
      * reflexivity.
      * intros s idx Hidx. apply in_seq in Hidx.
        unfold info_step. rewrite !indexed_class_infos.
        change ("rssc-info-" ++ "name" ++ Py.str (idx + 1))%string
          with ("rssc-info-name" ++ Py.str (idx + 1))%string.
        change ("rssc-info-" ++ "data" ++ Py.str (idx + 1))%string
          with ("rssc-info-data" ++ Py.str (idx + 1))%string.
        rewrite Htitle by lia. cbn [bind]. rewrite Helement by lia. cbn [bind].
        rewrite Hval by lia. reflexivity.
    + intros Hnd idx Hidx.
      apply (info_fields_get title val (seq 0 7) record Hnd). apply in_seq. lia.
Qed.

Lemma info_loop_assigns_seven_fields_witness :
  set_info numeric_last_page ([("link", VStr "/wiki/N")], None)
  = Ok ([("link", VStr "/wiki/N"); ("Drive", VStr "Rear-wheel drive"); ("Gears", VInt 6);
         ("Radio", VBool true); ("Mass", VInt 1400); ("Doors", VInt 2);
         ("Top", VStr "abc"); ("Seats", VInt 2)],
        Some (VInt 2)).
Proof.
  refine (proj1 (proj2 info_loop_assigns_seven_fields numeric_last_page
                   (infos_of [("Drive", text_node "Rear-wheel drive");
                              ("Gears", text_node "6"); ("Radio", icon "Check-Yes.png");
                              ("Mass", text_node "1400"); ("Doors", text_node "2");
                              ("Top", text_node "abc"); ("Seats", text_node "2")])
                   [] [("link", VStr "/wiki/N")] None
                   seven_titles seven_elements seven_values eq_refl _ _ _)).
  - intros [|[|[|[|[|[|[|idx]]]]]]] Hidx; try reflexivity; lia.
  - intros [|[|[|[|[|[|[|idx]]]]]]] Hidx; try reflexivity; lia.
  - intros [|[|[|[|[|[|[|idx]]]]]]] Hidx; try reflexivity; lia.
Defined.

(* ================================================================== *)
(** * Set image: texts of any code points *)

Lemma wide_find_unfold (sub s : Uni.text) :
  Uni.find sub s =
  if Uni.starts_with sub s then Some 0
  else match s with
       | [] => None
       | _ :: s' => option_map S (Uni.find sub s')
       end.
Proof. destruct s; reflexivity. Qed.








Example wide_image_of_car :
  Uni.image_of Uni.lower_case (Uni.of_string ".../car.PNG?revision=3")
  = Ok (Uni.of_string ".../car.PNG").
Proof. reflexivity. Qed.


(** On texts of code points below 256 the two readings of line 190
    agree. *)
Lemma lower_case_of_ascii (c : ascii) :
  Uni.lower_case (nat_of_ascii c) = [nat_of_ascii (Py.lower_char c)].
Proof.
  unfold Uni.lower_case.
  destruct (Nat.ltb_spec (nat_of_ascii c) 256) as [_|H].
  - now rewrite ascii_nat_embedding.
  - pose proof (nat_ascii_bounded c). lia.
Qed.

(** Every text of code points below 256 lower-cases code point by code
    point. *)
Lemma strings_lower_one_to_one (s : string) :
  Uni.one_to_one Uni.lower_case (Uni.of_string s).
Proof.
  unfold Uni.one_to_one, Uni.of_string.
  induction s as [|c s IH]; cbn [list_ascii_of_string map]; constructor;
    [|exact IH].
  eexists. apply lower_case_of_ascii.
Qed.

Lemma lower_of_string (s : string) :
  Uni.lower Uni.lower_case (Uni.of_string s) = Uni.of_string (Py.lower s).
Proof.
  unfold Uni.lower, Uni.of_string. induction s as [|c s IH]; [reflexivity|].
  cbn [list_ascii_of_string map flat_map Py.lower]. rewrite lower_case_of_ascii, IH.
  reflexivity.
Qed.

Lemma starts_with_of_string (sub s : string) :
  Uni.starts_with (Uni.of_string sub) (Uni.of_string s) = prefix sub s.
Proof.
  revert s. induction sub as [|a sub IH]; intros s; [now destruct s|].
  destruct s as [|b s]; [reflexivity|].
  unfold Uni.of_string in *. cbn [list_ascii_of_string map Uni.starts_with prefix].
  rewrite IH. destruct (ascii_dec a b) as [->|Hne].
  - now rewrite Nat.eqb_refl.
  - destruct (Nat.eqb_spec (nat_of_ascii a) (nat_of_ascii b)) as [E|_]; [|reflexivity].
    elim Hne. rewrite <- (ascii_nat_embedding a), <- (ascii_nat_embedding b).
    now rewrite E.
Qed.

Lemma find_of_string (sub s : string) :
  Uni.find (Uni.of_string sub) (Uni.of_string s) = Py.find sub s.
Proof.
  induction s as [|c s IH]; rewrite wide_find_unfold, find_unfold, starts_with_of_string.
  - reflexivity.
  - destruct (prefix sub (String c s)); [reflexivity|].
    unfold Uni.of_string in *. cbn [list_ascii_of_string map]. now rewrite IH.
Qed.

Lemma firstn_of_string (s : string) : forall k,
  firstn k (Uni.of_string s) = Uni.of_string (substring 0 k s).
Proof.
  unfold Uni.of_string. induction s as [|c s IH]; intros [|k]; try reflexivity.
  cbn [list_ascii_of_string map firstn substring]. now rewrite IH.
Qed.

Lemma image_of_agrees (url : string) :
  Uni.image_of Uni.lower_case (Uni.of_string url)
  = (image <- image_of (Some url) ;; Ok (Uni.of_string image)).
Proof.
  unfold Uni.image_of, image_of, Uni.index, Py.index, Uni.png.
  rewrite lower_of_string, find_of_string.
  destruct (Py.find ".png" (Py.lower url)) as [i|]; cbn [bind]; [|reflexivity].
  unfold Py.slice_to. now rewrite firstn_of_string.
Qed.

(* ================================================================== *)
(** * The fields every catalogued record has *)




(* ================================================================== *)
(** * Set price: the token after the currency symbol *)

(** C4.  The price is read from the token that follows the first "$" and
    ends before the next blank, line break or opening parenthesis: what
    stands before the "$" and after the token is dropped, the commas of the
    token are removed, and its integer value is stored under [PRICE] ([int]
    raising if it has none).  So a price element reading
    "$1,234,567 (approx.)" puts the integer 1234567 under [PRICE]; a price
    element whose text has no "$", and a hero without price element, leave
    the record as it is, and the record that reaches the price extraction
    has no [PRICE] field. *)
Theorem price_token_and_absence :
  (forall container element more record pre token suffix,
      find_elements container XPATH XPATH_PRICE = element :: more ->
      innerText element = (pre ++ String dollar (token ++ suffix))%string ->
      lacks dollar pre = true ->
      lacks blank token = true ->
      lacks newline_char token = true ->
      lacks paren token = true ->
      ends_or_starts_with [blank; newline_char; paren] suffix ->
      set_price container record
      = (n <- Py.int (Py.replace "$" "" (Py.replace "," "" token)) ;;
         Ok (dict_set "PRICE" (VInt n) record))) /\
  (forall container element more record,
      find_elements container XPATH XPATH_PRICE = element :: more ->
      innerText element = "$1,234,567 (approx.)" ->
      set_price container record = Ok (dict_set "PRICE" (VInt 1234567) record)) /\
  (forall container element more record,
      find_elements container XPATH XPATH_PRICE = element :: more ->
      (forall j, ~ occurs_at "$" (innerText element) j) ->
      set_price container record = Ok record) /\
  (forall container record,
      find_elements container XPATH XPATH_PRICE = [] ->
      set_price container record = Ok record) /\
  (forall driver url value container record value',
      set_hero driver url value = Ok (container, record, value') ->
      dict_get "PRICE" record = None /\
      dict_get "PRICE" (dict_set "PRICE" (VInt 1234567) record) = Some (VInt 1234567)).
Proof.
  assert (Htoken : forall container element more record pre token suffix,
      find_elements container XPATH XPATH_PRICE = element :: more ->
      innerText element = (pre ++ String dollar (token ++ suffix))%string ->
      lacks dollar pre = true ->
      lacks blank token = true ->
      lacks newline_char token = true ->
      lacks paren token = true ->
      ends_or_starts_with [blank; newline_char; paren] suffix ->
      set_price container record
      = (n <- Py.int (Py.replace "$" "" (Py.replace "," "" token)) ;;
         Ok (dict_set "PRICE" (VInt n) record))).
  { intros container element more record pre token suffix
           Hfind Htext Hpre Hblank Hline Hparen Hsuffix.
    unfold set_price. rewrite Hfind.
    assert (Hin : Py.contains "$" (innerText element) = true).
    { unfold Py.contains. rewrite Htext.
      change "$"%string with (String dollar EmptyString).
      now rewrite (find_char_first dollar pre _ Hpre). }
    rewrite Hin. cbv zeta.
    change (Py.replace "(" " " (Py.replace Py.newline " "
              (Py.replace "," "" (innerText element))))
      with (tidy (innerText element)).
    change ","%string with (String ","%char EmptyString).
    set (bare := Py.replace (String ","%char EmptyString) "" token).
    assert (Hbare : lacks blank bare = true /\ lacks newline_char bare = true /\
                    lacks paren bare = true).
    { unfold bare. split; [|split]; now apply replace_char_keeps_lacks. }
    destruct Hbare as (Hb & Hn & Hp).
    assert (Htok : tidy token = bare).
    { unfold tidy.
      change ","%string with (String ","%char EmptyString). fold bare.
      change Py.newline with (String newline_char EmptyString).
      change "("%string with (String paren EmptyString).
      now rewrite (replace_char_lacks newline_char _ _ Hn),
                  (replace_char_lacks paren _ _ Hp). }
    assert (Htidy : tidy (innerText element)
                    = (tidy pre ++ String dollar (bare ++ tidy suffix))%string).
    { rewrite Htext, tidy_app.
      change (String dollar (token ++ suffix))
        with (String dollar EmptyString ++ (token ++ suffix))%string.
      now rewrite !tidy_app, Htok. }
    rewrite Htidy.
    unfold Py.index. change "$"%string with (String dollar EmptyString).
    rewrite (find_char_first dollar (tidy pre) _ (tidy_keeps_lacking_dollar pre Hpre)).
    cbn [bind]. rewrite slice_from_app.
    change " "%string with (String blank EmptyString).
    change (String dollar (bare ++ tidy suffix))
      with (String dollar bare ++ tidy suffix)%string.
    destruct (split_first_piece blank (String dollar bare) (tidy suffix)) as [pieces ->].
    { apply lacks_cons. split; [reflexivity | exact Hb]. }
    { now apply tidy_suffix. }
    cbn [Py.item nth_error bind].
    rewrite replace_char_cons, Ascii.eqb_refl. reflexivity. }
  split; [exact Htoken|]. split; [|split; [|split]].
  - intros container element more record Hfind Htext.
    rewrite (Htoken container element more record "" "1,234,567" " (approx.)" Hfind Htext
               eq_refl eq_refl eq_refl eq_refl (or_introl eq_refl)).
    reflexivity.
  - intros container element more record Hfind Hno.
    unfold set_price. rewrite Hfind.
    apply contains_false in Hno. now rewrite Hno.
  - intros container record Hfind. unfold set_price. now rewrite Hfind.
  - intros driver url value container record value' Hhero.
    apply set_hero_ok in Hhero. destruct Hhero as (image & class & ->).
    split; reflexivity.
Qed.

Lemma price_token_and_absence_witness :
  set_price (price_hero ("Cost: $1,234,567" ++ Py.newline ++ "(approx.)"))
            [("link", VStr "/wiki/P")]
    = Ok [("link", VStr "/wiki/P"); ("PRICE", VInt 1234567)] /\
  set_price (price_hero "$1,234,567 (approx.)") [("link", VStr "/wiki/P")]
    = Ok [("link", VStr "/wiki/P"); ("PRICE", VInt 1234567)] /\
  set_price (price_hero "Not for sale") [("link", VStr "/wiki/P")]
    = Ok [("link", VStr "/wiki/P")] /\
  dict_get "PRICE" [("link", VStr "/wiki/P"); ("image", VStr ".../p.png");
                    ("CLASS", VStr "Sports ")] = None.
Proof.
  destruct price_token_and_absence as (Htoken & Hex & Hno & _ & Hhero).
  split; [|split; [|split]].
  - exact (Htoken (price_hero ("Cost: $1,234,567" ++ Py.newline ++ "(approx.)"))
                  (text_node ("Cost: $1,234,567" ++ Py.newline ++ "(approx.)")) []
                  [("link", VStr "/wiki/P")]
                  "Cost: " "1,234,567" (Py.newline ++ "(approx.)")%string
                  eq_refl eq_refl eq_refl eq_refl eq_refl eq_refl
                  (or_intror (or_introl eq_refl))).
  - exact (Hex (price_hero "$1,234,567 (approx.)") (text_node "$1,234,567 (approx.)") []
               [("link", VStr "/wiki/P")] eq_refl eq_refl).
  - apply (Hno (price_hero "Not for sale") (text_node "Not for sale") []
               [("link", VStr "/wiki/P")] eq_refl).
    apply contains_false. reflexivity.
  - exact (proj1 (Hhero (price_page "x") "/wiki/P" None (price_hero "x")
                    [("link", VStr "/wiki/P"); ("image", VStr ".../p.png");
                     ("CLASS", VStr "Sports ")]
                    (Some (VStr class_text)) eq_refl)).
Defined.

(** The token need not be a number: the conversion then raises. *)
Example price_to_be_announced :
  set_price (price_hero "$TBA (soon)") [] = Raise ValueError.
Proof. reflexivity. Qed.
